(** * A cheminformatics agent workflow: the data functions and the chat wiring

    A shallow embedding of [agent_functions.py] (the four data functions, the
    summary helper, the file-name protocol) and of the parts of
    [cheminformatics_chat.py] that are plain code (tool registration by
    attribute lookup, the terminate tool, the termination predicates).

    What the repository does not implement is taken as an interface: the
    ChEMBL web client, pandas' CSV text format and dtype inference, the
    directory tree, RDKit and Mordred.  A Python [str] is modelled by a Rocq
    [string]; its characters are the code points below 256. *)

From Stdlib Require Import ZArith Ascii String List Floats DecimalString.
From stdpp Require Import gmap strings list.

(** [+:+] computes by [simpl] on a literal left operand. *)
#[global] Arguments String.append !_ _ / : simpl nomatch.

(** ** Python string operations used by the two files *)

Module PyStr.

(** The line feed [print] ends its output with. *)
Definition nl : string := String (ascii_of_nat 10) EmptyString.

(** [str(n)] for a Python [int]. *)
Definition str_of_int (z : Z) : string := NilZero.string_of_int (Z.to_int z).

(** [c in s] for a one-character [c]. *)
Fixpoint has_char (c : ascii) (s : string) : bool :=
  match s with
  | EmptyString => false
  | String a s' => Ascii.eqb a c || has_char c s'
  end.

(** [s.split(sep)] for a one-character separator: never empty, one more
    field than there are separators. *)
Fixpoint split (sep : ascii) (s : string) : list string :=
  match s with
  | EmptyString => [EmptyString]
  | String a s' =>
      if Ascii.eqb a sep then EmptyString :: split sep s'
      else match split sep s' with
           | [] => [String a EmptyString]
           | field :: fields => String a field :: fields
           end
  end.

(** [s.startswith(p)]. *)
Fixpoint startswith (s p : string) {struct p} : bool :=
  match p, s with
  | EmptyString, _ => true
  | String _ _, EmptyString => false
  | String x p', String y s' => Ascii.eqb x y && startswith s' p'
  end.

(** [needle in hay]: [hay] has [needle] as a substring. *)
Fixpoint contains (hay needle : string) : bool :=
  startswith hay needle ||
  match hay with
  | EmptyString => false
  | String _ hay' => contains hay' needle
  end.

(** [s.endswith(suffix)]. *)
Fixpoint endswith (s suffix : string) : bool :=
  String.eqb s suffix ||
  match s with
  | EmptyString => false
  | String _ s' => endswith s' suffix
  end.

(** [str.isspace] on one character, for the code points below 256: tab to
    carriage return, the four separators 28..31, space, NEL and the
    no-break space. *)
Definition is_space (c : ascii) : bool :=
  let n := nat_of_ascii c in
  ((9 <=? n) && (n <=? 13)) || ((28 <=? n) && (n <=? 32)) || (n =? 133) || (n =? 160).

Fixpoint all_space (s : string) : bool :=
  match s with
  | EmptyString => true
  | String a s' => is_space a && all_space s'
  end.

(** [s.rstrip()]: the trailing whitespace removed. *)
Fixpoint rstrip (s : string) : string :=
  match s with
  | EmptyString => EmptyString
  | String a s' =>
      match rstrip s' with
      | EmptyString => if is_space a then EmptyString else String a EmptyString
      | rest => String a rest
      end
  end.

End PyStr.

(** ** Python values, tables and exceptions *)

(** A scalar Python value, as a table cell or a message field holds it.
    [SObj] stands for any other object (a nested list or dict of a ChEMBL
    record), named by its [repr]. *)
Inductive scalar : Type :=
  | SNone
  | SBool (b : bool)
  | SInt (z : Z)
  | SFloat (f : float)
  | SStr (s : string)
  | SObj (repr : string).

(** A value of a summary or of a chat message: a scalar or a list. *)
Inductive pyval : Type :=
  | PScalar (x : scalar)
  | PList (xs : list scalar).

(** Python truthiness, as [if v:] and [a and b] test it. *)
Definition scalar_truthy (x : scalar) : bool :=
  match x with
  | SNone => false
  | SBool b => b
  | SInt z => negb (Z.eqb z 0)
  | SFloat f => negb (PrimFloat.eqb f 0%float)
  | SStr s => negb (String.eqb s "")
  | SObj _ => true
  end.

Definition truthy (v : pyval) : bool :=
  match v with
  | PScalar x => scalar_truthy x
  | PList xs => negb (Nat.eqb (length xs) 0)
  end.

(** [pandas.isna] on one cell: [None] and NaN are missing. *)
Definition isna (x : scalar) : bool :=
  match x with
  | SNone => true
  | SFloat f => PrimFloat.is_nan f
  | _ => false
  end.

(** [cell == s] for a Python [str] [s]: only an equal [str] compares equal. *)
Definition eq_str (x : scalar) (s : string) : bool :=
  match x with
  | SStr t => String.eqb t s
  | _ => false
  end.

(** Two cells hold the same value up to the dtype of their column: both
    are missing or neither is, and if either is a [str] the other is the
    same [str]. *)
Definition same_value (v c : scalar) : Prop :=
  isna c = isna v /\ forall s, c = SStr s <-> v = SStr s.

(** The exceptions the modelled code can raise. [ArgumentError] is what an
    RDKit descriptor raises on [None]. [FileNotFoundError] is what reading
    raises for a path that leads to no file; [OSError] is what [to_csv]
    raises for a path into a directory that is not there. *)
Inductive exn : Type :=
  | ValueError (msg : string)
  | KeyError (key : string)
  | AttributeError (name : string)
  | IndexError
  | TypeError
  | UnboundLocalError (var : string)
  | FileNotFoundError (path : string)
  | OSError (path : string)
  | ArgumentError
  | LibraryError (what : string).

Inductive result (A : Type) : Type :=
  | Ok (a : A)
  | Raise (e : exn).
Arguments Ok {A} a.
Arguments Raise {A} e.

(** A [pandas.DataFrame]: column labels and rows of cells. *)
Record DataFrame : Type := mkDataFrame {
  columns : list string;
  rows : list (list scalar)
}.

(** A [pandas.Series]. *)
Record Series : Type := mkSeries {
  index : list scalar;
  values : list scalar
}.

(** What a caller can pass where a table is expected. *)
Inductive pyobj : Type :=
  | ODataFrame (df : DataFrame)
  | OSeries (sr : Series)
  | OOther (v : pyval).

(** [df.shape[0]]. *)
Definition num_rows_of (df : DataFrame) : Z := Z.of_nat (length (rows df)).

(** Position of a label in [df.columns]. *)
Fixpoint column_position (name : string) (cols : list string) : option nat :=
  match cols with
  | [] => None
  | c :: cols' =>
      if String.eqb c name then Some 0
      else option_map S (column_position name cols')
  end.

(** A missing cell reads as NaN. *)
Definition cell_at (i : nat) (row : list scalar) : scalar := nth i row (SFloat nan).

(** [df[name]] as the list of its cells, [None] when there is no such column. *)
Definition get_column (df : DataFrame) (name : string) : option (list scalar) :=
  match column_position name (columns df) with
  | Some i => Some (map (cell_at i) (rows df))
  | None => None
  end.

(** [df[mask]]: the rows whose mask entry is [True]. *)
Fixpoint select_rows (mask : list bool) (rs : list (list scalar)) : list (list scalar) :=
  match mask, rs with
  | keep :: mask', r :: rs' => if keep then r :: select_rows mask' rs' else select_rows mask' rs'
  | _, _ => []
  end.

Definition boolean_index (df : DataFrame) (mask : list bool) : DataFrame :=
  mkDataFrame (columns df) (select_rows mask (rows df)).

(** A JSON object of the ChEMBL client: its fields in order. *)
Definition record : Type := list (string * scalar).

Fixpoint record_get (r : record) (key : string) : scalar :=
  match r with
  | [] => SFloat nan
  | (k, v) :: r' => if String.eqb k key then v else record_get r' key
  end.

(** [key in r]. *)
Definition has_key (r : record) (key : string) : bool :=
  existsb (String.eqb key) (map fst r).

(** Labels in order of first appearance. *)
Fixpoint first_seen (keys : list string) : list string :=
  match keys with
  | [] => []
  | k :: keys' => k :: List.filter (fun k' => negb (String.eqb k' k)) (first_seen keys')
  end.

(** [l[i]] on a Python list. *)
Definition py_index {A : Type} (l : list A) (i : nat) : result A :=
  match nth_error l i with
  | Some x => Ok x
  | None => Raise IndexError
  end.

(** Sequencing of code that can raise. *)
Definition and_then {A B : Type} (r : result A) (k : A -> result B) : result B :=
  match r with
  | Ok a => k a
  | Raise e => Raise e
  end.

Notation "x <~ r ;; k" := (and_then r (fun x => k))
  (at level 100, r at next level, right associativity).

(** *** [summarize_df] (agent_functions.py, lines 38-54) *)

(** A local variable that is read before any branch assigned it. *)
Definition read_local {A : Type} (name : string) (binding : option A) : result A :=
  match binding with
  | Some a => Ok a
  | None => Raise (UnboundLocalError name)
  end.

(** [if file_name:] on the optional argument: [None] and the empty string are
    both falsy. *)
Definition file_name_truthy (file_name : option string) : bool :=
  match file_name with
  | Some name => scalar_truthy (SStr name)
  | None => false
  end.

Definition summarize_df (obj : pyobj) (file_name : option string) : result (gmap string pyval) :=
  let result_dict : option (gmap string pyval) :=
    match obj with
    | ODataFrame df =>
        Some (<["num_rows" := PScalar (SInt (num_rows_of df))]>
              (<["columns" := PList (map SStr (columns df))]> ∅))
    | OSeries sr =>
        Some (<["values" := PList (values sr)]> (<["index" := PList (index sr)]> ∅))
    | OOther _ => None
    end in
  match file_name with
  | Some name =>
      if scalar_truthy (SStr name) then
        d <~ read_local "result_dict" result_dict ;;
        Ok (<["csv_output" := PScalar (SStr name)]> d)
      else read_local "result_dict" result_dict
  | None => read_local "result_dict" result_dict
  end.

(** The summary of a table with no file name. *)
Definition table_summary (df : DataFrame) : gmap string pyval :=
  <["num_rows" := PScalar (SInt (num_rows_of df))]>
    (<["columns" := PList (map SStr (columns df))]> ∅).

(** ** The world the data functions act on *)

(** pandas' CSV text: what [to_csv(index=False)] writes for a table and what
    [read_csv] loads from a file (or raises on it); and pandas' dtype
    inference, which decides what the cells given to the constructor become
    in the frame (integers become floats in a column with a missing value,
    [None] becomes NaN in a numeric column, and so on). All that is known of
    the inference is that it keeps the shape, which cells are missing, and
    every [str]. *)
Class PandasIO : Type := {
  csv : Type;
  csv_of_table : DataFrame -> csv;
  table_of_csv : csv -> result DataFrame;
  infer_dtypes : list (list scalar) -> list (list scalar);
  infer_dtypes_same : forall cells : list (list scalar),
    Forall2 (Forall2 same_value) cells (infer_dtypes cells)
}.

(** [pd.DataFrame(records)] and [pd.DataFrame.from_dict(records)] on a list of
    dicts: the columns are the keys seen, a key a record lacks reads NaN,
    and the cells go through the dtype inference. *)
Definition DataFrame_of_records `{PandasIO} (recs : list record) : DataFrame :=
  let cols := first_seen (concat (map (map fst) recs)) in
  mkDataFrame cols (infer_dtypes (map (fun r => map (record_get r) cols) recs)).

(** The directory tree the program runs in, which it never changes (no
    stage creates a directory): the place a path names, [None] when a
    directory on the way is missing. Two spellings of one place resolve to
    the same place. *)
Class FileSystem : Type := {
  resolve : string -> option string
}.

(** The ChEMBL web client: [new_client.target.search(q)], and the records an
    [activity.filter(...)] query set with the given keyword filters holds. *)
Class ChEMBL : Type := {
  target_search : string -> list record;
  activity_filter : list (string * string) -> list record
}.

(** RDKit: [Chem.MolFromSmiles] ([None] for a string it cannot parse) and the
    five descriptors. *)
Class RDKit : Type := {
  mol : Type;
  MolFromSmiles : string -> option mol;
  MolWt : mol -> float;
  NumHDonors : mol -> Z;
  NumHAcceptors : mol -> Z;
  NumRotatableBonds : mol -> Z;
  MolLogP : mol -> float
}.

(** Mordred: [Calculator(descriptors, ignore_3D=True).pandas(mols)]. *)
Class Mordred `{RDKit} : Type := {
  calc_pandas : list (option mol) -> result DataFrame
}.

(** The files, by place, and standard output. *)
Record world `{PandasIO} : Type := mkWorld {
  files : gmap string csv;
  stdout : string
}.
Arguments mkWorld {_} files stdout.

Section DataFunctions.

Context `{pandas_io : PandasIO} `{fs : FileSystem} `{chembl : ChEMBL} `{rdkit : RDKit}
        `{mordred : !Mordred}.

(** A computation that may raise and may change the world; what it did
    before raising stays done. *)
Definition M (A : Type) : Type := world -> result A * world.

Definition ret {A : Type} (a : A) : M A := fun w => (Ok a, w).

Definition raise {A : Type} (e : exn) : M A := fun w => (Raise e, w).

Definition bind {A B : Type} (m : M A) (k : A -> M B) : M B :=
  fun w =>
    match m w with
    | (Ok a, w') => k a w'
    | (Raise e, w') => (Raise e, w')
    end.

Definition lift {A : Type} (r : result A) : M A := fun w => (r, w).

Notation "x <- m ;; k" := (bind m (fun x => k))
  (at level 100, m at next level, right associativity).
Notation "m ;;; k" := (bind m (fun _ => k))
  (at level 100, right associativity).

(** [df.to_csv(path, index=False)]: the file at the place the path names
    is created or replaced; on a path that names no place an [OSError] is
    raised and nothing is written. *)
Definition to_csv (df : DataFrame) (path : string) : M unit :=
  fun w =>
    match resolve path with
    | Some place => (Ok tt, mkWorld (<[place := csv_of_table df]> (files w)) (stdout w))
    | None => (Raise (OSError path), w)
    end.

(** [pd.read_csv(path)]: a path that names no place, or a place that holds
    no file, raises [FileNotFoundError]. *)
Definition read_csv (path : string) : M DataFrame :=
  fun w =>
    match resolve path with
    | Some place =>
        match files w !! place with
        | Some f => (table_of_csv f, w)
        | None => (Raise (FileNotFoundError path), w)
        end
    | None => (Raise (FileNotFoundError path), w)
    end.

(** [print] on its arguments, each already through [str]: joined by single
    spaces, ended by a line feed. *)
Definition print (args : list string) : M unit :=
  fun w => (Ok tt, mkWorld (files w) (stdout w +:+ String.concat " " args +:+ PyStr.nl)).

(** *** The file-name protocol *)

(** agent_functions.py, lines 57-67. *)
Definition target_query_results_file (target_name : string) : string :=
  "target_query_results_" +:+ target_name +:+ ".csv".

(** The f-string of line 150. *)
Definition activity_file_name (chembl_id standard_type : string) : string :=
  "activity_data_" +:+ chembl_id +:+ "_" +:+ standard_type +:+ ".csv".

(** The f-string of line 192. *)
Definition lipinski_file_name (target_id activity_type : string) : string :=
  target_id +:+ "_" +:+ activity_type +:+ "_lipinski.csv".

Definition mordred_file_name : string := "mordred_descriptors.csv".

(** Lines 190-191: the target id and the activity type read back from the
    activity file's name. *)
Definition parse_activity_file_name (activity_file : string) : result (string * string) :=
  target_id <~ py_index (PyStr.split "_" activity_file) 2 ;;
  with_ext <~ py_index (PyStr.split "_" activity_file) 3 ;;
  activity_type <~ py_index (PyStr.split "." with_ext) 0 ;;
  Ok (target_id, activity_type).

(** *** [download_protein_results] (lines 70-88) *)

Definition download_protein_results (target_query_string : string) : M (gmap string pyval) :=
  let target_result := target_search target_query_string in
  let df := DataFrame_of_records target_result in
  let file_name := target_query_results_file target_query_string in
  to_csv df file_name ;;;
  lift (summarize_df (ODataFrame df) None).

(** *** [select_target_from_query_results] (lines 91-111) *)

Definition not_found_msg (chembl_id : string) : string :=
  "Error: " +:+ chembl_id +:+ " not found in the protein results dataframe".

(** [series.eq(s)] and [series == s]. *)
Definition series_eq (cells : list scalar) (s : string) : list bool :=
  map (fun x => eq_str x s) cells.

(** [mask.any()]. *)
Definition any (mask : list bool) : bool := existsb (fun b => b) mask.

(** [df.name]: attribute access to a column. *)
Definition column_attr (df : DataFrame) (name : string) : M (list scalar) :=
  match get_column df name with
  | Some cells => ret cells
  | None => raise (AttributeError name)
  end.

(** [df[name]]: item access to a column. *)
Definition column_item (df : DataFrame) (name : string) : M (list scalar) :=
  match get_column df name with
  | Some cells => ret cells
  | None => raise (KeyError name)
  end.

Definition select_target_from_query_results (chembl_id target_query_string : string)
  : M (gmap string pyval) :=
  protein_result_df <- read_csv (target_query_results_file target_query_string) ;;
  ids <- column_attr protein_result_df "target_chembl_id" ;;
  if negb (any (series_eq ids chembl_id)) then
    raise (ValueError (not_found_msg chembl_id))
  else
    ids <- column_item protein_result_df "target_chembl_id" ;;
    lift (summarize_df
            (ODataFrame (boolean_index protein_result_df (series_eq ids chembl_id)))
            None).

(** *** [generate_activity_data] (lines 114-152) *)

Definition no_activity_msg (chembl_id : string) : string :=
  "No activity data found for " +:+ chembl_id +:+ ". Please try another target.".

Definition wrong_standard_type_msg (standard_type : string) : string :=
  "Activity data was found for this target, but not with the standard type '"
  +:+ standard_type +:+ "'. Please try another standard type.".

(** [not activity_result] on a query set: it is falsy when it holds no record. *)
Definition is_empty {A : Type} (l : list A) : bool :=
  match l with
  | [] => true
  | _ :: _ => false
  end.

(** [df.dropna(subset=[name])]: a [KeyError] when there is no such column,
    else the rows whose cell there is not missing. *)
Definition dropna (df : DataFrame) (name : string) : result DataFrame :=
  match column_position name (columns df) with
  | None => Raise (KeyError name)
  | Some i => Ok (mkDataFrame (columns df) (List.filter (fun r => negb (isna (cell_at i r))) (rows df)))
  end.

Definition dropped_line (num_rows_dropped : Z) : list string :=
  ["Dropped "; PyStr.str_of_int num_rows_dropped; " rows with no smiles."].

Definition generate_activity_data (chembl_id standard_type : string) : M (gmap string pyval) :=
  let activity_result := activity_filter [("target_chembl_id", chembl_id)] in
  if is_empty activity_result then raise (ValueError (no_activity_msg chembl_id))
  else
    let activity_result :=
      activity_filter [("target_chembl_id", chembl_id); ("standard_type", standard_type)] in
    if is_empty activity_result then raise (ValueError (wrong_standard_type_msg standard_type))
    else
      let df := DataFrame_of_records activity_result in
      let num_rows := num_rows_of df in
      df <- lift (dropna df "canonical_smiles") ;;
      let num_rows_dropped := (num_rows - num_rows_of df)%Z in
      print (dropped_line num_rows_dropped) ;;;
      let file_name := activity_file_name chembl_id standard_type in
      to_csv df file_name ;;;
      lift (summarize_df (ODataFrame df) (Some file_name)).

(** *** [calculate_lipinski_descriptors] (lines 155-196) *)

Definition lipinski_columns : list string :=
  ["Molecular Weight"; "H-Bond Donors"; "H-Bond Acceptors"; "Rotatable Bonds"; "LogP"].

(** The five descriptors of a parsed molecule, in the order of lines 177-181. *)
Definition descriptor_row (m : mol) : list scalar :=
  [SFloat (MolWt m); SInt (NumHDonors m); SInt (NumHAcceptors m);
   SInt (NumRotatableBonds m); SFloat (MolLogP m)].

(** One turn of the loop of lines 174-182: [MolFromSmiles] takes a [str]
    only, and a descriptor raises on the [None] of a failed parse. *)
Definition lipinski_row (smiles : scalar) : result (list scalar) :=
  match smiles with
  | SStr s =>
      match MolFromSmiles s with
      | Some m => Ok (descriptor_row m)
      | None => Raise ArgumentError
      end
  | _ => Raise TypeError
  end.

(** Whether a cell is a structure string RDKit parses. *)
Definition parses (smiles : scalar) : bool :=
  match smiles with
  | SStr s => match MolFromSmiles s with Some _ => true | None => false end
  | _ => false
  end.

(** The descriptor row of a structure-string cell, as a function of the
    cell alone (empty where the loop would raise). *)
Definition descriptors_of_smiles (smiles : scalar) : list scalar :=
  match smiles with
  | SStr s => match MolFromSmiles s with Some m => descriptor_row m | None => [] end
  | _ => []
  end.

Fixpoint lipinski_rows (smiles_series : list scalar) : result (list (list scalar)) :=
  match smiles_series with
  | [] => Ok []
  | smiles :: rest =>
      row <~ lipinski_row smiles ;;
      more <~ lipinski_rows rest ;;
      Ok (row :: more)
  end.

Definition calculate_lipinski_descriptors (activity_file : string) : M (gmap string pyval) :=
  activity_data <- read_csv activity_file ;;
  smiles_series <- column_item activity_data "canonical_smiles" ;;
  lipinski_descriptors <- lift (lipinski_rows smiles_series) ;;
  let lipinski_df := mkDataFrame lipinski_columns lipinski_descriptors in
  names <- lift (parse_activity_file_name activity_file) ;;
  let file_name := lipinski_file_name (fst names) (snd names) in
  to_csv lipinski_df file_name ;;;
  lift (summarize_df (ODataFrame lipinski_df) (Some file_name)).

(** *** [calculate_mordred_descriptors] (lines 199-206) *)

Definition calculate_mordred_descriptors (smiles : list string) : M (gmap string pyval) :=
  mordred_descriptors <- lift (calc_pandas (map MolFromSmiles smiles)) ;;
  to_csv mordred_descriptors mordred_file_name ;;;
  lift (summarize_df (ODataFrame mordred_descriptors) None).

(** *** [chat_friendly_df_summary] (lines 15-36) *)

(** The decorator: the wrapper it returns calls [func] and summarises what
    it returned; like [summarize_df] it binds [result_dict] only for a table
    or a series. *)
Definition chat_friendly_df_summary {A : Type} (func : A -> M pyobj)
  : A -> M (gmap string pyval) :=
  fun args =>
    obj <- func args ;;
    let result_dict : option (gmap string pyval) :=
      match obj with
      | ODataFrame df =>
          Some (<["num_rows" := PScalar (SInt (num_rows_of df))]>
                (<["columns" := PList (map SStr (columns df))]> ∅))
      | OSeries sr =>
          Some (<["values" := PList (values sr)]> (<["index" := PList (index sr)]> ∅))
      | OOther _ => None
      end in
    lift (read_local "result_dict" result_dict).

End DataFunctions.

(** ** The orchestration script (cheminformatics_chat.py) *)

Module Chat.

(** The names [agent_functions.py] binds at module level, in source order
    (imports, [config_list], then the [def]s), after the attributes every
    module has. *)
Definition agent_functions_namespace : list string :=
  ["__name__"; "__doc__"; "__package__"; "__loader__"; "__spec__"; "__file__";
   "__cached__"; "__builtins__";
   "pd"; "new_client"; "Calculator"; "descriptors"; "Chem"; "Descriptors"; "Lipinski";
   "List"; "Annotated"; "autogen"; "Cache"; "config_list";
   "chat_friendly_df_summary"; "summarize_df"; "target_query_results_file";
   "download_protein_results"; "select_target_from_query_results";
   "generate_activity_data"; "calculate_lipinski_descriptors";
   "calculate_mordred_descriptors"].

Definition has_name (namespace : list string) (name : string) : bool :=
  existsb (String.eqb name) namespace.

(** [module.name]: the object bound to [name] (named by it here), or an
    [AttributeError]. *)
Definition getattr (namespace : list string) (name : string) : result string :=
  if has_name namespace name then Ok name else Raise (AttributeError name).

(** The attribute each [autogen.agentchat.register_function] call of lines
    59-85 looks up in [agent_functions], in order. *)
Definition registered_attributes : list string :=
  ["download_protein_results"; "generate_activity_data";
   "select_target_from_query_results"; "calculate_lipinksi_descriptors"].

(** Running the registrations top to bottom: the tools registered, or the
    first exception. *)
Fixpoint register_functions (namespace : list string) (attrs : list string)
  : result (list string) :=
  match attrs with
  | [] => Ok []
  | a :: attrs' =>
      f <~ getattr namespace a ;;
      rest <~ register_functions namespace attrs' ;;
      Ok (f :: rest)
  end.

(** Lines 91-92. *)
Definition terminate_group_chat (message : string) : string :=
  "[GROUPCHAT_TERMINATE] " +:+ message.

(** The content field of a chat message: [None], a [str], or the list of
    parts of a multimodal message. *)
Inductive field : Type :=
  | FNone
  | FStr (s : string)
  | FParts (parts : list scalar).

Definition field_value (f : field) : pyval :=
  match f with
  | FNone => PScalar SNone
  | FStr s => PScalar (SStr s)
  | FParts parts => PList parts
  end.

(** [x.get(key, default)]. *)
Definition dict_get (x : gmap string field) (key : string) (default : field) : field :=
  match x !! key with
  | Some v => v
  | None => default
  end.

(** Lines 33 and 43, the same lambda twice:
    [x.get("content", "") and x.get("content", "").rstrip().endswith("TERMINATE")].
    [a and b] is [a] when [a] is falsy; only a [str] has [rstrip]. *)
Definition user_proxy_for_running_code_is_termination_msg (x : gmap string field)
  : result pyval :=
  let content := dict_get x "content" (FStr "") in
  if negb (truthy (field_value content)) then Ok (field_value content)
  else match dict_get x "content" (FStr "") with
       | FStr s => Ok (PScalar (SBool (PyStr.endswith (PyStr.rstrip s) "TERMINATE")))
       | _ => Raise (AttributeError "rstrip")
       end.

Definition user_proxy_for_user_input_is_termination_msg (x : gmap string field)
  : result pyval :=
  let content := dict_get x "content" (FStr "") in
  if negb (truthy (field_value content)) then Ok (field_value content)
  else match dict_get x "content" (FStr "") with
       | FStr s => Ok (PScalar (SBool (PyStr.endswith (PyStr.rstrip s) "TERMINATE")))
       | _ => Raise (AttributeError "rstrip")
       end.

(** Line 112: ["GROUPCHAT_TERMINATE" in x.get("content", "")]: a substring
    test on a [str], membership on a list, a [TypeError] on [None]. *)
Definition manager_is_termination_msg (x : gmap string field) : result bool :=
  match dict_get x "content" (FStr "") with
  | FStr s => Ok (PyStr.contains s "GROUPCHAT_TERMINATE")
  | FParts parts => Ok (existsb (fun part => eq_str part "GROUPCHAT_TERMINATE") parts)
  | FNone => Raise TypeError
  end.

(** A predicate holds on a message when it returns a truthy value. *)
Definition holds (r : result pyval) : bool :=
  match r with
  | Ok v => truthy v
  | Raise _ => false
  end.

Definition holds_bool (r : result bool) : bool :=
  match r with
  | Ok b => b
  | Raise _ => false
  end.

(** What the marker occurring in the content means for each kind of content:
    a substring of a [str], an element of a list, never for [None]. *)
Definition occurs_in (marker : string) (content : field) : Prop :=
  match content with
  | FStr s => exists pre post, s = pre +:+ marker +:+ post
  | FParts parts => In (SStr marker) parts
  | FNone => False
  end.

(** The content is a [str] made of some text, the suffix, and then nothing
    but whitespace. *)
Definition stripped_ends_with (suffix : string) (content : field) : Prop :=
  match content with
  | FStr s => exists pre ws, s = pre +:+ suffix +:+ ws /\ PyStr.all_space ws = true
  | _ => False
  end.

End Chat.

(** ** A small concrete world, to run the functions on *)

(** What a cell becomes in a column whose missing values are turned to
    NaN. *)
Definition retype (x : scalar) : scalar :=
  match x with
  | SNone => SFloat nan
  | other => other
  end.

(** Every cell has the same value as itself. *)
Lemma same_cells (cells : list (list scalar)) : Forall2 (Forall2 same_value) cells cells.
Proof.
  induction cells as [|row cells IH]; constructor; [| exact IH].
  induction row as [|x row IHrow]; constructor; [| exact IHrow].
  split; [reflexivity | tauto].
Qed.

(** Turning the missing values to NaN changes no value. *)
Lemma retyped_cells (cells : list (list scalar)) :
  Forall2 (Forall2 same_value) cells (map (map retype) cells).
Proof.
  induction cells as [|row cells IH]; constructor; [| exact IH].
  induction row as [|x row IHrow]; constructor; [| exact IHrow].
  destruct x; split; try reflexivity; try tauto.
  intros s. split; discriminate.
Qed.

Module Demo.

(** CSV text that loads back to the table written, and an inference that
    leaves every cell as it is. *)
Definition io : PandasIO :=
  {| csv := DataFrame; csv_of_table := fun df => df; table_of_csv := fun df => Ok df;
     infer_dtypes := fun cells => cells; infer_dtypes_same := same_cells |}.

(** What a cell looks like once written as text and read back: a missing
    cell and the empty string both come back as NaN, a nested object comes
    back as the text of its [repr]. *)
Definition reread (x : scalar) : scalar :=
  match x with
  | SNone => SFloat nan
  | SStr s => if String.eqb s "" then SFloat nan else SStr s
  | SObj r => SStr r
  | other => other
  end.

(** CSV text that does not load back to the table written, and an
    inference that turns every missing value to NaN. *)
Definition text_io : PandasIO :=
  {| csv := DataFrame;
     csv_of_table := fun df => df;
     table_of_csv := fun df => Ok (mkDataFrame (columns df) (map (map reread) (rows df)));
     infer_dtypes := map (map retype); infer_dtypes_same := retyped_cells |}.

(** A working directory with no directory in it: a name without a slash is
    its own place, a path through a directory names none. *)
Definition fs : FileSystem :=
  {| resolve := fun path => if PyStr.has_char "/" path then None else Some path |}.

(** A tree where [my_data_pull] is a directory (and [pull] is none): a path
    into it is a place, every other path through a directory names none. *)
Definition fs_data_pull : FileSystem :=
  {| resolve := fun path =>
       if PyStr.startswith path "my_data_pull/" then
         if PyStr.has_char "/" (String.substring 13 (String.length path) path)
         then None else Some path
       else if PyStr.has_char "/" path then None else Some path |}.

Definition targets : list record :=
  [ [("organism", SStr "Homo sapiens"); ("pref_name", SStr "EGFR");
     ("target_chembl_id", SStr "CHEMBL203")];
    [("organism", SStr "Mus musculus"); ("pref_name", SStr "Egfr");
     ("target_chembl_id", SStr "CHEMBL3608")] ].

(** Results with a nested object and a [None] among their values. *)
Definition kinase_targets : list record :=
  [ [("cross_references", SObj "[]"); ("organism", SNone);
     ("target_chembl_id", SStr "CHEMBL203")];
    [("cross_references", SObj "[]"); ("organism", SStr "Mus musculus");
     ("target_chembl_id", SStr "CHEMBL3608")] ].

Definition activities : list record :=
  [ [("canonical_smiles", SStr "CCO"); ("standard_type", SStr "IC50");
     ("target_chembl_id", SStr "CHEMBL203")];
    [("canonical_smiles", SNone); ("standard_type", SStr "IC50");
     ("target_chembl_id", SStr "CHEMBL203")];
    [("canonical_smiles", SStr "c1ccccc1"); ("standard_type", SStr "IC50");
     ("target_chembl_id", SStr "CHEMBL203")];
    [("canonical_smiles", SStr "CC(=O)O"); ("standard_type", SStr "Ki");
     ("target_chembl_id", SStr "CHEMBL3608")] ].

Definition matches (kwargs : list (string * string)) (r : record) : bool :=
  forallb (fun kv => eq_str (record_get r (fst kv)) (snd kv)) kwargs.

Definition client : ChEMBL :=
  {| target_search := fun q =>
       if String.eqb q "EGFR" then targets
       else if String.eqb q "kinase" then kinase_targets
       else [];
     activity_filter := fun kwargs => List.filter (matches kwargs) activities |}.

(** A stand-in for RDKit: a molecule is its SMILES text, the empty string
    does not parse, and the descriptors are simple counts. *)
Definition toolkit : RDKit :=
  {| mol := string;
     MolFromSmiles := fun s => if String.eqb s "" then None else Some s;
     MolWt := fun _ => 46.5%float;
     NumHDonors := fun m => Z.of_nat (String.length m);
     NumHAcceptors := fun _ => 1%Z;
     NumRotatableBonds := fun _ => 0%Z;
     MolLogP := fun _ => 0.5%float |}.

Definition calculator : @Mordred toolkit :=
  {| calc_pandas := fun mols =>
       if forallb (fun m => match m with Some _ => true | None => false end) mols
       then Ok (mkDataFrame ["ABC"] (map (fun _ => [SInt 0]) mols))
       else Raise (LibraryError "mordred") |}.

Definition empty_world : @world io := mkWorld ∅ "".

Definition empty_text_world : @world text_io := mkWorld ∅ "".

(** The world after the target query for EGFR has been saved. *)
Definition queried_world : @world io :=
  mkWorld (<[ "target_query_results_EGFR.csv" :=
              mkDataFrame ["organism"; "pref_name"; "target_chembl_id"]
                [ [SStr "Homo sapiens"; SStr "EGFR"; SStr "CHEMBL203"];
                  [SStr "Mus musculus"; SStr "Egfr"; SStr "CHEMBL3608"] ] ]> ∅) "".

(** The world after the IC50 activity data of CHEMBL203 has been saved. *)
Definition activity_world : @world io :=
  mkWorld (<[ "activity_data_CHEMBL203_IC50.csv" :=
              mkDataFrame ["canonical_smiles"; "standard_type"; "target_chembl_id"]
                [ [SStr "CCO"; SStr "IC50"; SStr "CHEMBL203"];
                  [SStr "c1ccccc1"; SStr "IC50"; SStr "CHEMBL203"] ] ]> ∅) "".

(** A world with a CSV whose name has two fields only. *)
Definition short_name_world : @world io :=
  mkWorld (<[ "smiles.csv" := mkDataFrame ["canonical_smiles"] [ [SStr "CCO"] ] ]> ∅) "".

(** A world with an activity file inside the directory [my_data_pull]. *)
Definition data_pull_world : @world io :=
  mkWorld (<[ "my_data_pull/activity_data_CHEMBL203_IC50.csv" :=
              mkDataFrame ["canonical_smiles"] [ [SStr "CCO"] ] ]> ∅) "".

(** A world whose activity file has a NaN structure string. *)
Definition missing_cell_world : @world io :=
  mkWorld (<[ "activity_data_CHEMBL203_IC50.csv" :=
              mkDataFrame ["canonical_smiles"] [ [SStr "CCO"]; [SFloat nan] ] ]> ∅) "".

End Demo.

(** ** Facts about the string operations *)

Module PyStrFacts.
Import PyStr.

Example split_ex : split "_" "activity_data_CHEMBL203_IC50.csv"
                   = ["activity"; "data"; "CHEMBL203"; "IC50.csv"].
Proof. reflexivity. Qed.

Example split_empty_ex : split "_" "" = [""] /\ split "_" "_a_" = [""; "a"; ""].
Proof. split; reflexivity. Qed.

Example rstrip_ex : rstrip ("done TERMINATE  " +:+ nl) = "done TERMINATE" /\ rstrip "   " = "".
Proof. split; reflexivity. Qed.

Example contains_ex : contains "[GROUPCHAT_TERMINATE] bye" "GROUPCHAT_TERMINATE" = true
                      /\ contains "TERMINATE" "GROUPCHAT_TERMINATE" = false.
Proof. split; reflexivity. Qed.

Example str_of_int_ex : str_of_int 12 = "12" /\ str_of_int 0 = "0".
Proof. split; reflexivity. Qed.

(** *** Facts about [+:+] *)

Lemma app_nil_r (s : string) : s +:+ "" = s.
Proof. induction s as [|a s IH]; simpl; [reflexivity | now rewrite IH]. Qed.

Lemma app_assoc (a b c : string) : (a +:+ b) +:+ c = a +:+ (b +:+ c).
Proof. induction a as [|x a IH]; simpl; [reflexivity | now rewrite IH]. Qed.

(** *** [split] *)

Lemma split_nonempty sep s : split sep s <> [].
Proof.
  destruct s as [|a s]; simpl; [discriminate |].
  destruct (Ascii.eqb a sep); [discriminate |].
  destruct (split sep s); discriminate.
Qed.

Lemma split_no_sep sep s : has_char sep s = false -> split sep s = [s].
Proof.
  induction s as [|a s IH]; simpl; intros Hs; [reflexivity |].
  apply orb_false_iff in Hs as [Ha Hs].
  rewrite Ha, (IH Hs). reflexivity.
Qed.

Lemma split_field sep a b :
  has_char sep a = false ->
  split sep (a +:+ String sep b) = a :: split sep b.
Proof.
  induction a as [|x a IH]; simpl; intros Ha.
  - now rewrite Ascii.eqb_refl.
  - apply orb_false_iff in Ha as [Hx Ha].
    rewrite Hx, (IH Ha). reflexivity.
Qed.

(** *** [contains] and [endswith] against their meaning *)

Lemma startswith_spec s p : startswith s p = true <-> exists post, s = p +:+ post.
Proof.
  revert s; induction p as [|x p IH]; intros s; simpl.
  - split; [intros _; now exists s | reflexivity].
  - destruct s as [|y s].
    + split; [discriminate | intros [post H]; discriminate].
    + rewrite andb_true_iff, Ascii.eqb_eq, IH. split.
      * intros [-> [post ->]]. now exists post.
      * intros [post H]. injection H as -> ->. split; [reflexivity | now exists post].
Qed.

Lemma contains_spec hay needle :
  contains hay needle = true <-> exists pre post, hay = pre +:+ needle +:+ post.
Proof.
  induction hay as [|y hay IH]; simpl.
  - rewrite orb_false_r, startswith_spec. split.
    + intros [post H]. now exists "", post.
    + intros [pre [post H]]. destruct pre; [now exists post | discriminate].
  - rewrite orb_true_iff, startswith_spec, IH. split.
    + intros [[post H] | [pre [post H]]].
      * now exists "", post.
      * exists (String y pre), post. simpl. now rewrite H.
    + intros [pre [post H]]. destruct pre as [|x pre]; simpl in H.
      * left. now exists post.
      * right. exists pre, post. congruence.
Qed.

Lemma endswith_spec s suffix :
  endswith s suffix = true <-> exists pre, s = pre +:+ suffix.
Proof.
  induction s as [|y s IH]; cbn [endswith].
  - rewrite orb_false_r, String.eqb_eq. split.
    + intros <-. now exists "".
    + intros [pre H]. destruct pre; [exact H | discriminate].
  - rewrite orb_true_iff, String.eqb_eq, IH. split.
    + intros [<- | [pre H]]; [now exists "" | exists (String y pre); simpl; now rewrite H].
    + intros [pre H]. destruct pre as [|x pre]; simpl in H.
      * now left.
      * right. exists pre. congruence.
Qed.

(** *** [rstrip] *)

Lemma rstrip_all_space s : all_space s = true -> rstrip s = "".
Proof.
  induction s as [|a s IH]; simpl; intros Hs; [reflexivity |].
  apply andb_true_iff in Hs as [Ha Hs]. now rewrite (IH Hs), Ha.
Qed.

Lemma rstrip_empty_inv s : rstrip s = "" -> all_space s = true.
Proof.
  induction s as [|a s IH]; simpl; [reflexivity |].
  destruct (rstrip s) eqn:Hr; [| discriminate].
  destruct (is_space a); [intros _; now rewrite IH | discriminate].
Qed.

(** Whitespace after the text is dropped. *)
Lemma rstrip_app_space s ws : all_space ws = true -> rstrip (s +:+ ws) = rstrip s.
Proof.
  intros Hws. induction s as [|a s IH]; simpl.
  - now apply rstrip_all_space.
  - now rewrite IH.
Qed.

(** Text that ends in a non-space character is left as it is. *)
Lemma rstrip_ends_nonspace s c : is_space c = false -> rstrip (s +:+ String c "") = s +:+ String c "".
Proof.
  intros Hc. induction s as [|a s IH]; simpl.
  - now rewrite Hc.
  - rewrite IH. destruct s; reflexivity.
Qed.

(** What [rstrip] removed was whitespace. *)
Lemma rstrip_decompose s : exists ws, s = rstrip s +:+ ws /\ all_space ws = true.
Proof.
  induction s as [|a s [ws [Hs Hws]]]; simpl.
  - now exists "".
  - destruct (rstrip s) as [|b r] eqn:Hr.
    + pose proof (rstrip_empty_inv _ Hr) as Hall.
      destruct (is_space a) eqn:Ha.
      * exists (String a s). simpl. now rewrite Ha, Hall.
      * exists s. now split.
    + exists ws. split; [| exact Hws].
      change (String a (String b r) +:+ ws) with (String a (String b r +:+ ws)).
      now rewrite <- Hs.
Qed.

Lemma has_char_app c a b : has_char c (a +:+ b) = has_char c a || has_char c b.
Proof.
  induction a as [|x a IH]; simpl; [reflexivity |].
  now rewrite IH, orb_assoc.
Qed.

(** Every separator starts one more field. *)
Lemma split_length_app sep a b :
  length (split sep (a +:+ String sep b)) = length (split sep a) + length (split sep b).
Proof.
  induction a as [|x a IH]; simpl.
  - now rewrite Ascii.eqb_refl.
  - destruct (Ascii.eqb x sep); simpl.
    + now rewrite IH.
    + pose proof (split_nonempty sep (a +:+ String sep b)) as Hne.
      pose proof (split_nonempty sep a) as Hne'.
      destruct (split sep (a +:+ String sep b)), (split sep a); simpl in *; congruence.
Qed.

Lemma split_length_pos sep s : 1 <= length (split sep s).
Proof.
  pose proof (split_nonempty sep s). destruct (split sep s); simpl; [congruence | lia].
Qed.

(** The fields on the two sides of a separator, side by side. *)
Lemma split_app sep a b :
  split sep (a +:+ String sep b) = split sep a ++ split sep b.
Proof.
  induction a as [|x a IH]; simpl.
  - now rewrite Ascii.eqb_refl.
  - destruct (Ascii.eqb x sep); [now rewrite IH |].
    rewrite IH. pose proof (split_nonempty sep a) as Hne.
    destruct (split sep a); [congruence | reflexivity].
Qed.

(** No field holds the separator. *)
Lemma split_field_no_sep sep s f : In f (split sep s) -> has_char sep f = false.
Proof.
  revert f; induction s as [|x s IH]; simpl; intros f Hin.
  - destruct Hin as [<- | []]. reflexivity.
  - destruct (Ascii.eqb x sep) eqn:Hx.
    + destruct Hin as [<- | Hin]; [reflexivity | now apply IH].
    + pose proof (split_nonempty sep s) as Hne.
      destruct (split sep s) as [|g gs]; [congruence |].
      destruct Hin as [<- | Hin].
      * simpl. rewrite Hx. apply IH. now left.
      * apply IH. now right.
Qed.

(** A field holds only characters of the string it was cut from. *)
Lemma split_field_chars sep c s f :
  In f (split sep s) -> has_char c f = true -> has_char c s = true.
Proof.
  revert f; induction s as [|x s IH]; simpl; intros f Hin Hc.
  - destruct Hin as [<- | []]. discriminate.
  - destruct (Ascii.eqb x sep) eqn:Hx.
    + destruct Hin as [<- | Hin]; [discriminate |].
      rewrite (IH f Hin Hc). apply orb_true_r.
    + pose proof (split_nonempty sep s) as Hne.
      destruct (split sep s) as [|g gs]; [congruence |].
      destruct Hin as [<- | Hin].
      * simpl in Hc. apply orb_true_iff in Hc as [Hc | Hc].
        -- now rewrite Hc.
        -- rewrite (IH g (or_introl eq_refl) Hc). apply orb_true_r.
      * rewrite (IH f (or_intror Hin) Hc). apply orb_true_r.
Qed.

Lemma has_char_false_chars sep c s f :
  In f (split sep s) -> has_char c s = false -> has_char c f = false.
Proof.
  intros Hin Hs. destruct (has_char c f) eqn:Hf; [| reflexivity].
  rewrite (split_field_chars _ _ _ _ Hin Hf) in Hs. discriminate.
Qed.

End PyStrFacts.

(** ** The orchestration script: registration and termination *)

Module ChatFacts.
Import PyStr PyStrFacts Chat.

Lemma eq_str_true x s : eq_str x s = true <-> x = SStr s.
Proof.
  destruct x; simpl; try (split; [discriminate | congruence]).
  rewrite String.eqb_eq. split; congruence.
Qed.

Lemma existsb_eq_str parts s :
  existsb (fun part => eq_str part s) parts = true <-> In (SStr s) parts.
Proof.
  rewrite existsb_exists. split.
  - intros [x [Hin Hx]]. apply eq_str_true in Hx. now subst.
  - intros Hin. exists (SStr s). split; [exact Hin | now apply eq_str_true].
Qed.

Lemma rstrip_terminate pre : rstrip (pre +:+ "TERMINATE") = pre +:+ "TERMINATE".
Proof.
  change (pre +:+ "TERMINATE") with (pre +:+ ("TERMINAT" +:+ String "E" "")).
  rewrite <- app_assoc. now apply rstrip_ends_nonspace.
Qed.

Lemma stripped_endswith_terminate s :
  endswith (rstrip s) "TERMINATE" = true
  <-> exists pre ws, s = pre +:+ "TERMINATE" +:+ ws /\ all_space ws = true.
Proof.
  rewrite endswith_spec. split.
  - intros [pre Hpre]. destruct (rstrip_decompose s) as [ws [Hs Hws]].
    exists pre, ws. split; [| exact Hws].
    rewrite Hs at 1. now rewrite Hpre, app_assoc.
  - intros [pre [ws [-> Hws]]]. exists pre.
    now rewrite <- app_assoc, rstrip_app_space, rstrip_terminate.
Qed.

Lemma user_proxy_predicate_spec (content : field) :
  holds (if negb (truthy (field_value content)) then Ok (field_value content)
         else match content with
              | FStr s => Ok (PScalar (SBool (endswith (rstrip s) "TERMINATE")))
              | _ => Raise (AttributeError "rstrip")
              end) = true
  <-> stripped_ends_with "TERMINATE" content.
Proof.
  destruct content as [| s | parts]; simpl.
  - split; [discriminate | tauto].
  - destruct s as [|a s]; cbn [String.eqb negb holds truthy scalar_truthy].
    + split; [discriminate |].
      intros [pre [ws [H _]]]. destruct pre; discriminate.
    + apply stripped_endswith_terminate.
  - destruct parts; simpl; (split; [discriminate | tauto]).
Qed.

Example user_proxy_ex :
  holds (user_proxy_for_running_code_is_termination_msg
           (<["content" := FStr ("All done. TERMINATE " +:+ nl)]> ∅)) = true
  /\ holds (user_proxy_for_running_code_is_termination_msg
              (<["content" := FStr "TERMINATE the chat"]> ∅)) = false
  /\ user_proxy_for_user_input_is_termination_msg (<["content" := FNone]> ∅)
     = Ok (PScalar SNone)
  /\ user_proxy_for_user_input_is_termination_msg ∅ = Ok (PScalar (SStr "")).
Proof. repeat split; reflexivity. Qed.

Example manager_ex :
  manager_is_termination_msg (<["content" := FStr (terminate_group_chat "bye")]> ∅) = Ok true
  /\ manager_is_termination_msg (<["content" := FStr "TERMINATE"]> ∅) = Ok false
  /\ manager_is_termination_msg (<["content" := FNone]> ∅) = Raise TypeError
  /\ manager_is_termination_msg ∅ = Ok false.
Proof. repeat split; reflexivity. Qed.

(** C7. The fourth tool registration of the orchestration script asks the
    functions module for [calculate_lipinksi_descriptors]; the module binds
    [calculate_lipinski_descriptors], a different name, and nothing under the
    name asked for, so the lookup raises an [AttributeError] and the
    registrations as written stop there. *)
Theorem registration_names_mismatch :
  nth_error registered_attributes 3 = Some "calculate_lipinksi_descriptors"
  /\ "calculate_lipinksi_descriptors" <> "calculate_lipinski_descriptors"
  /\ has_name agent_functions_namespace "calculate_lipinski_descriptors" = true
  /\ has_name agent_functions_namespace "calculate_lipinksi_descriptors" = false
  /\ getattr agent_functions_namespace "calculate_lipinksi_descriptors"
     = Raise (AttributeError "calculate_lipinksi_descriptors")
  /\ register_functions agent_functions_namespace registered_attributes
     = Raise (AttributeError "calculate_lipinksi_descriptors")
  /\ register_functions agent_functions_namespace (firstn 3 registered_attributes)
     = Ok ["download_protein_results"; "generate_activity_data";
           "select_target_from_query_results"].
Proof.
  repeat split; try reflexivity. discriminate.
Qed.

(** C8. [terminate_group_chat m] is the marker text followed by [m]; a
    message whose content is such a string satisfies the manager's
    predicate; the manager's predicate holds exactly when
    GROUPCHAT_TERMINATE occurs in the content; and each of the two user-proxy
    predicates holds exactly when the content, with its trailing whitespace
    removed, ends with TERMINATE (that is: it is a string made of some text,
    TERMINATE, and then whitespace only). *)
Theorem termination_by_string_matching :
  (forall m, terminate_group_chat m = "[GROUPCHAT_TERMINATE] " +:+ m)
  /\ (forall m (x : gmap string field),
        x !! "content" = Some (FStr (terminate_group_chat m)) ->
        manager_is_termination_msg x = Ok true)
  /\ (forall x : gmap string field,
        holds_bool (manager_is_termination_msg x) = true
        <-> occurs_in "GROUPCHAT_TERMINATE" (dict_get x "content" (FStr "")))
  /\ (forall x : gmap string field,
        holds (user_proxy_for_running_code_is_termination_msg x) = true
        <-> stripped_ends_with "TERMINATE" (dict_get x "content" (FStr "")))
  /\ (forall x : gmap string field,
        holds (user_proxy_for_user_input_is_termination_msg x) = true
        <-> stripped_ends_with "TERMINATE" (dict_get x "content" (FStr "")))
  /\ (forall s : string,
        stripped_ends_with "TERMINATE" (FStr s)
        <-> endswith (rstrip s) "TERMINATE" = true).
Proof.
  split; [reflexivity |]. split; [| split; [| split; [| split]]].
  - intros m x Hx. unfold manager_is_termination_msg, dict_get. rewrite Hx.
    reflexivity.
  - intros x. unfold manager_is_termination_msg.
    destruct (dict_get x "content" (FStr "")) as [| s | parts]; simpl.
    + split; [discriminate | tauto].
    + apply contains_spec.
    + apply existsb_eq_str.
  - intros x. apply user_proxy_predicate_spec.
  - intros x. apply user_proxy_predicate_spec.
  - intros s. symmetry. apply stripped_endswith_terminate.
Qed.

End ChatFacts.

(** ** [summarize_df] *)

Module SummaryFacts.

Lemma file_name_truthy_spec (file_name : option string) :
  file_name_truthy file_name = true <-> exists name, file_name = Some name /\ name <> "".
Proof.
  destruct file_name as [name|]; simpl.
  - destruct name as [|a name]; simpl.
    + split; [discriminate | intros [n [[= <-] Hn]]; congruence].
    + split; [intros _; exists (String a name); split; congruence | reflexivity].
  - split; [discriminate | intros [n [[=] _]]].
Qed.

(** The keys of a two-entry dict. *)
Lemma two_keys (a b k : string) (va vb : pyval) :
  is_Some ((<[a := va]> (<[b := vb]> (∅ : gmap string pyval))) !! k) <-> k = b \/ k = a.
Proof.
  rewrite !lookup_insert_is_Some.
  pose proof (lookup_empty_is_Some (M := gmap string) (A := pyval) k) as Hempty.
  destruct (decide (a = k)), (decide (b = k)); intuition congruence.
Qed.

Lemma three_keys (a b c k : string) (va vb vc : pyval) :
  is_Some ((<[c := vc]> (<[a := va]> (<[b := vb]> (∅ : gmap string pyval)))) !! k)
  <-> k = b \/ k = a \/ k = c.
Proof.
  rewrite lookup_insert_is_Some, two_keys.
  destruct (decide (c = k)); intuition congruence.
Qed.

(** The summary of a table, by cases on the file name. *)
Lemma summarize_df_table (df : DataFrame) (file_name : option string) :
  summarize_df (ODataFrame df) file_name =
  Ok (let d := <["num_rows" := PScalar (SInt (num_rows_of df))]>
                 (<["columns" := PList (map SStr (columns df))]> ∅) in
      match file_name with
      | Some name => if negb (String.eqb name "") then <["csv_output" := PScalar (SStr name)]> d else d
      | None => d
      end).
Proof.
  destruct file_name as [name|]; simpl; [| reflexivity].
  destruct (String.eqb name ""); reflexivity.
Qed.

Lemma summarize_df_series (sr : Series) (file_name : option string) :
  summarize_df (OSeries sr) file_name =
  Ok (let d := <["values" := PList (values sr)]> (<["index" := PList (index sr)]> ∅) in
      match file_name with
      | Some name => if negb (String.eqb name "") then <["csv_output" := PScalar (SStr name)]> d else d
      | None => d
      end).
Proof.
  destruct file_name as [name|]; simpl; [| reflexivity].
  destruct (String.eqb name ""); reflexivity.
Qed.

(** The guard on the file name is its truthiness: the empty string is no
    file name, and the summary then has its two keys only. *)
Example summarize_df_empty_file_name :
  summarize_df (ODataFrame (mkDataFrame ["smiles"] [])) (Some "")
  = Ok (<["num_rows" := PScalar (SInt 0)]> (<["columns" := PList [SStr "smiles"]]> ∅)).
Proof. reflexivity. Qed.

(** C10. [summarize_df] returns a dict only for a table or a series. For
    a table the dict has [columns] and [num_rows], and [csv_output] (the file
    name) exactly when a file name is supplied, that is when the guard
    [if file_name:] passes on a non-empty string; for a series it has
    [index] and [values] (and [csv_output] under the same guard); for any
    other argument, whatever the file name, it raises the unbound-local
    error on [result_dict]. *)
Theorem summarize_df_cases :
  (forall (df : DataFrame) (file_name : option string),
     exists d, summarize_df (ODataFrame df) file_name = Ok d
       /\ d !! "columns" = Some (PList (map SStr (columns df)))
       /\ d !! "num_rows" = Some (PScalar (SInt (num_rows_of df)))
       /\ (forall name, file_name = Some name -> name <> "" ->
             d !! "csv_output" = Some (PScalar (SStr name)))
       /\ (forall k, is_Some (d !! k) <->
             k = "columns" \/ k = "num_rows"
             \/ (k = "csv_output" /\ exists name, file_name = Some name /\ name <> "")))
  /\ (forall (sr : Series) (file_name : option string),
        exists d, summarize_df (OSeries sr) file_name = Ok d
          /\ d !! "index" = Some (PList (index sr))
          /\ d !! "values" = Some (PList (values sr))
          /\ (forall k, is_Some (d !! k) <->
                k = "index" \/ k = "values"
                \/ (k = "csv_output" /\ exists name, file_name = Some name /\ name <> "")))
  /\ (forall (v : pyval) (file_name : option string),
        summarize_df (OOther v) file_name = Raise (UnboundLocalError "result_dict")).
Proof.
  split; [| split].
  - intros df file_name. rewrite summarize_df_table. eexists; split; [reflexivity |].
    destruct file_name as [[|a name]|]; cbn [String.eqb negb].
    + repeat split; try reflexivity; try (intros ? [= <-] ?; congruence).
      * intros Hk. apply two_keys in Hk. tauto.
      * intros [-> | [-> | [_ [n [[= <-] Hn]]]]]; try (apply two_keys; tauto); congruence.
    + repeat split; try reflexivity.
      * intros ? [= <-] _. apply lookup_insert_eq.
      * intros Hk. apply three_keys in Hk as [-> | [-> | ->]]; eauto 6.
      * intros [-> | [-> | [-> _]]]; apply three_keys; tauto.
    + repeat split; try reflexivity; try (intros ? [=]).
      * intros Hk. apply two_keys in Hk. tauto.
      * intros [-> | [-> | [_ [n [[=] _]]]]]; apply two_keys; tauto.
  - intros sr file_name. rewrite summarize_df_series. eexists; split; [reflexivity |].
    destruct file_name as [[|a name]|]; cbn [String.eqb negb].
    + repeat split; try reflexivity.
      * intros Hk. apply two_keys in Hk. tauto.
      * intros [-> | [-> | [_ [n [[= <-] Hn]]]]]; try (apply two_keys; tauto); congruence.
    + repeat split; try reflexivity.
      * intros Hk. apply three_keys in Hk as [-> | [-> | ->]]; eauto 6.
      * intros [-> | [-> | [-> _]]]; apply three_keys; tauto.
    + repeat split; try reflexivity.
      * intros Hk. apply two_keys in Hk. tauto.
      * intros [-> | [-> | [_ [n [[=] _]]]]]; apply two_keys; tauto.
  - intros v [name|]; simpl; [| reflexivity].
    destruct (String.eqb name ""); reflexivity.
Qed.

End SummaryFacts.

(** ** Tables built from records *)

Section TableFacts.

Context `{pandas_io : PandasIO}.

Lemma column_position_nth (name : string) (cols : list string) (i : nat) :
  column_position name cols = Some i -> nth_error cols i = Some name.
Proof.
  revert i; induction cols as [|c cols IH]; simpl; intros i Hi; [discriminate |].
  destruct (String.eqb c name) eqn:Hc.
  - injection Hi as <-. apply String.eqb_eq in Hc. now subst.
  - destruct (column_position name cols) as [j|]; [| discriminate].
    injection Hi as <-. now apply IH.
Qed.

Lemma column_position_In (name : string) (cols : list string) :
  In name cols <-> exists i, column_position name cols = Some i.
Proof.
  split.
  - induction cols as [|c cols IH]; simpl; intros Hin; [contradiction |].
    destruct (String.eqb c name) eqn:Hc; [now exists 0 |].
    destruct Hin as [-> | Hin]; [rewrite String.eqb_refl in Hc; discriminate |].
    destruct (IH Hin) as [i Hi]. exists (S i). now rewrite Hi.
  - intros [i Hi]. apply column_position_nth in Hi. eapply nth_error_In, Hi.
Qed.


Lemma first_seen_In (k : string) (keys : list string) :
  In k (first_seen keys) <-> In k keys.
Proof.
  induction keys as [|x keys IH]; simpl; [tauto |].
  rewrite filter_In, IH. split.
  - intros [-> | [Hin _]]; tauto.
  - intros [-> | Hin]; [tauto |].
    destruct (String.eqb k x) eqn:Hkx.
    + apply String.eqb_eq in Hkx. subst. tauto.
    + right. split; [exact Hin | reflexivity].
Qed.

Lemma has_key_In (r : record) (k : string) : has_key r k = true <-> In k (map fst r).
Proof.
  unfold has_key. rewrite existsb_exists. split.
  - intros [x [Hin Hx]]. apply String.eqb_eq in Hx. now subst.
  - intros Hin. exists k. split; [exact Hin | apply String.eqb_refl].
Qed.

(** A key is a column of the table exactly when some record has it. *)
Lemma column_of_records (recs : list record) (k : string) :
  existsb (fun r => has_key r k) recs = true
  <-> exists i, column_position k (columns (DataFrame_of_records recs)) = Some i.
Proof.
  rewrite <- column_position_In. unfold DataFrame_of_records. cbn [columns].
  rewrite first_seen_In, in_concat, existsb_exists. split.
  - intros [r [Hin Hk]]. exists (map fst r). split; [now apply in_map | now apply has_key_In].
  - intros [ks [Hks Hk]]. apply in_map_iff in Hks as [r [<- Hin]].
    exists r. split; [exact Hin | now apply has_key_In].
Qed.

Lemma column_of_records_absent (recs : list record) (k : string) :
  existsb (fun r => has_key r k) recs = false ->
  column_position k (columns (DataFrame_of_records recs)) = None.
Proof.
  intros Hno. destruct (column_position k _) as [i|] eqn:Hi; [| reflexivity].
  assert (Hyes : existsb (fun r => has_key r k) recs = true)
    by (apply column_of_records; now exists i).
  congruence.
Qed.

(** The cell of a record's row under a column is the record's value for
    that key. *)
Lemma cell_of_record (r : record) (cols : list string) (k : string) (i : nat) :
  nth_error cols i = Some k -> cell_at i (map (record_get r) cols) = record_get r k.
Proof.
  unfold cell_at. revert i; induction cols as [|c cols IH]; intros [|i]; simpl;
    try discriminate.
  - now intros [= ->].
  - apply IH.
Qed.

Lemma same_value_refl (v : scalar) : same_value v v.
Proof. split; [reflexivity | tauto]. Qed.

Lemma same_value_trans (u v c : scalar) : same_value u v -> same_value v c -> same_value u c.
Proof.
  intros [Hna Hstr] [Hna' Hstr']. split; [congruence |].
  intros s. now rewrite Hstr', Hstr.
Qed.

Lemma cell_at_same (i : nat) (row row' : list scalar) :
  Forall2 same_value row row' -> same_value (cell_at i row) (cell_at i row').
Proof.
  unfold cell_at. intros Hrow. revert i.
  induction Hrow as [|v c row row' Hvc Hrow IH]; intros [|i]; simpl;
    try apply same_value_refl; [exact Hvc | apply IH].
Qed.

(** A function of a cell that looks at its text only gives the same on two
    cells with the same value. *)
Lemma by_text {A : Type} (f : scalar -> A) (other : A) (v c : scalar) :
  (forall x, (forall s, x <> SStr s) -> f x = other) ->
  same_value v c -> f c = f v.
Proof.
  intros Hother [_ Hstr]. destruct v as [| | | | s |].
  all: try (rewrite (Hother c), Hother;
            [reflexivity | discriminate | intros s Hc; apply Hstr in Hc; discriminate]).
  now rewrite (proj2 (Hstr s) eq_refl).
Qed.

Lemma eq_str_same (s : string) (v c : scalar) : same_value v c -> eq_str c s = eq_str v s.
Proof.
  apply (by_text (fun x => eq_str x s) false).
  intros x Hx. destruct x; try reflexivity. now destruct (Hx s0).
Qed.

Lemma isna_same (v c : scalar) : same_value v c -> isna c = isna v.
Proof. now intros [H _]. Qed.

Lemma typed_rows_same (cols : list string) (k : string) (i : nat)
    (recs : list record) (typed : list (list scalar)) :
  nth_error cols i = Some k ->
  Forall2 (Forall2 same_value) (map (fun r => map (record_get r) cols) recs) typed ->
  Forall2 (fun r row => same_value (record_get r k) (cell_at i row)) recs typed.
Proof.
  intros Hi. revert typed.
  induction recs as [|r recs IH]; intros typed Hsame; simpl in Hsame.
  - inversion Hsame. constructor.
  - inversion Hsame as [|raw row raws rows' Hrow Hrest]; subst. constructor.
    + rewrite <- (cell_of_record r cols k i Hi). now apply cell_at_same.
    + now apply IH.
Qed.

(** Row by row, the cell of the table under a column is the record's value
    for that key, up to the dtype of the column. *)
Lemma rows_of_records_same (recs : list record) (k : string) (i : nat) :
  column_position k (columns (DataFrame_of_records recs)) = Some i ->
  Forall2 (fun r row => same_value (record_get r k) (cell_at i row))
          recs (rows (DataFrame_of_records recs)).
Proof.
  intros Hi. apply column_position_nth in Hi.
  unfold DataFrame_of_records in *. cbn [rows columns] in *.
  eapply typed_rows_same; [exact Hi | apply infer_dtypes_same].
Qed.

Lemma rows_of_records (recs : list record) :
  length (rows (DataFrame_of_records recs)) = length recs.
Proof.
  unfold DataFrame_of_records. cbn [rows].
  rewrite <- (Forall2_length _ _ _ (infer_dtypes_same _)). apply length_map.
Qed.

(** Filters that agree on related elements keep related elements. *)
Lemma filter_related {A B : Type} (R : A -> B -> Prop) (p : A -> bool) (q : B -> bool)
    (l : list A) (l' : list B) :
  Forall2 R l l' -> (forall x y, R x y -> q y = p x) ->
  Forall2 R (List.filter p l) (List.filter q l').
Proof.
  intros Hl Hpq. induction Hl as [|x y l l' Hxy Hl IH]; simpl; [constructor |].
  rewrite (Hpq x y Hxy). destruct (p x); [constructor |]; assumption.
Qed.

Lemma map_related {A B C : Type} (R : A -> B -> Prop) (f : A -> C) (g : B -> C)
    (l : list A) (l' : list B) :
  Forall2 R l l' -> (forall x y, R x y -> g y = f x) -> map g l' = map f l.
Proof.
  intros Hl Hfg. induction Hl as [|x y l l' Hxy Hl IH]; simpl; [reflexivity |].
  now rewrite (Hfg x y Hxy), IH.
Qed.

Lemma related_trans {A B C : Type} (R : A -> B -> Prop) (S : B -> C -> Prop)
    (T : A -> C -> Prop) (l : list A) (l' : list B) (l'' : list C) :
  (forall x y z, R x y -> S y z -> T x z) ->
  Forall2 R l l' -> Forall2 S l' l'' -> Forall2 T l l''.
Proof.
  intros Htrans Hl. revert l''.
  induction Hl as [|x y l l' Hxy Hl IH]; intros l'' Hl'; inversion Hl'; subst;
    constructor; eauto.
Qed.

Lemma filter_length_split {A : Type} (p : A -> bool) (l : list A) :
  length (List.filter p l) + length (List.filter (fun x => negb (p x)) l) = length l.
Proof.
  induction l as [|x l IH]; simpl; [reflexivity |].
  destruct (p x); simpl; lia.
Qed.

Lemma existsb_filter_nonempty {A : Type} (p : A -> bool) (l : list A) :
  existsb p l = true <-> List.filter p l <> [].
Proof.
  induction l as [|x l IH]; simpl; [split; congruence |].
  destruct (p x); simpl; [split; [discriminate | reflexivity] | exact IH].
Qed.

End TableFacts.

(** ** The data functions *)

Section DataFunctionFacts.

Context `{pandas_io : PandasIO} `{fs : FileSystem} `{chembl : ChEMBL} `{rdkit : RDKit}
        `{mordred : !Mordred}.

Lemma read_csv_loaded (path place : string) (w : world) (f : csv) (df : DataFrame) :
  resolve path = Some place -> files w !! place = Some f -> table_of_csv f = Ok df ->
  read_csv path w = (Ok df, w).
Proof. intros Hp Hf Hdf. unfold read_csv. now rewrite Hp, Hf, Hdf. Qed.

Lemma get_column_at (df : DataFrame) (name : string) (i : nat) :
  column_position name (columns df) = Some i ->
  get_column df name = Some (map (cell_at i) (rows df)).
Proof. intros Hi. unfold get_column. now rewrite Hi. Qed.

Lemma select_rows_series_eq (i : nat) (s : string) (rs : list (list scalar)) :
  select_rows (series_eq (map (cell_at i) rs) s) rs
  = List.filter (fun r => eq_str (cell_at i r) s) rs.
Proof.
  unfold series_eq. induction rs as [|r rs IH]; simpl; [reflexivity |].
  now rewrite IH.
Qed.

Lemma any_series_eq (i : nat) (s : string) (rs : list (list scalar)) :
  any (series_eq (map (cell_at i) rs) s) = existsb (fun r => eq_str (cell_at i r) s) rs.
Proof.
  unfold any, series_eq. induction rs as [|r rs IH]; simpl; [reflexivity |].
  now rewrite IH.
Qed.

(** What [download_protein_results] does, by cases on the file name. *)
Lemma download_protein_results_run (target_query_string : string) (w : world) :
  download_protein_results target_query_string w =
  let df := DataFrame_of_records (target_search target_query_string) in
  match resolve (target_query_results_file target_query_string) with
  | Some place =>
      (Ok (table_summary df), mkWorld (<[place := csv_of_table df]> (files w)) (stdout w))
  | None => (Raise (OSError (target_query_results_file target_query_string)), w)
  end.
Proof.
  unfold download_protein_results, bind, to_csv, lift. cbv zeta.
  destruct (resolve (target_query_results_file target_query_string)); reflexivity.
Qed.


(** C1. When the target-query file of the query string is there and loads
    to a table with a [target_chembl_id] column: if some row has that cell
    equal to [chembl_id], [select_target_from_query_results] returns the
    summary of the table made of exactly the rows with that cell equal to
    [chembl_id] (its [num_rows] is their count); if no row has, it raises the
    [ValueError] naming [chembl_id]. The world is left as it was. *)
Theorem select_target_from_query_results_spec
    (chembl_id target_query_string place : string) (w : world) (f : csv) (df : DataFrame)
    (i : nat) :
  resolve (target_query_results_file target_query_string) = Some place ->
  files w !! place = Some f ->
  table_of_csv f = Ok df ->
  column_position "target_chembl_id" (columns df) = Some i ->
  let is_match := fun r => eq_str (cell_at i r) chembl_id in
  let matching := List.filter is_match (rows df) in
  ((exists r, In r (rows df) /\ is_match r = true) ->
     select_target_from_query_results chembl_id target_query_string w
     = (summarize_df (ODataFrame (mkDataFrame (columns df) matching)) None, w)
     /\ summarize_df (ODataFrame (mkDataFrame (columns df) matching)) None
        = Ok (<["num_rows" := PScalar (SInt (Z.of_nat (length matching)))]>
                (<["columns" := PList (map SStr (columns df))]> ∅))
     /\ (forall r, In r matching <-> In r (rows df) /\ is_match r = true))
  /\ ((forall r, In r (rows df) -> is_match r = false) ->
      select_target_from_query_results chembl_id target_query_string w
      = (Raise (ValueError (not_found_msg chembl_id)), w)).
Proof.
  intros Hplace Hf Hdf Hcol is_match matching.
  assert (Hrun : select_target_from_query_results chembl_id target_query_string w
                 = if existsb is_match (rows df)
                   then (summarize_df (ODataFrame (mkDataFrame (columns df) matching)) None, w)
                   else (Raise (ValueError (not_found_msg chembl_id)), w)).
  { unfold select_target_from_query_results, bind.
    rewrite (read_csv_loaded _ _ _ _ _ Hplace Hf Hdf).
    unfold column_attr, column_item. rewrite (get_column_at _ _ _ Hcol).
    unfold ret. rewrite any_series_eq. fold is_match.
    destruct (existsb is_match (rows df)); simpl; [| reflexivity].
    unfold lift, boolean_index. now rewrite select_rows_series_eq. }
  split.
  - intros Hex. apply existsb_exists in Hex. rewrite Hrun, Hex.
    split; [reflexivity |]. split; [reflexivity |].
    intros r. apply filter_In.
  - intros Hnone. rewrite Hrun.
    destruct (existsb is_match (rows df)) eqn:Hex; [| reflexivity].
    apply existsb_exists in Hex as [r [Hin Hr]]. rewrite (Hnone r Hin) in Hr. discriminate.
Qed.

(** What [generate_activity_data] does, by cases on the two queries, on
    the structure-string column and on the file name. The line is printed
    before the file is written. *)
Lemma generate_activity_data_run (chembl_id standard_type : string) (w : world) :
  generate_activity_data chembl_id standard_type w =
  let for_target := activity_filter [("target_chembl_id", chembl_id)] in
  let of_type :=
    activity_filter [("target_chembl_id", chembl_id); ("standard_type", standard_type)] in
  let df := DataFrame_of_records of_type in
  if is_empty for_target then (Raise (ValueError (no_activity_msg chembl_id)), w)
  else if is_empty of_type then (Raise (ValueError (wrong_standard_type_msg standard_type)), w)
  else match column_position "canonical_smiles" (columns df) with
       | None => (Raise (KeyError "canonical_smiles"), w)
       | Some i =>
           let kept := mkDataFrame (columns df)
                         (List.filter (fun r => negb (isna (cell_at i r))) (rows df)) in
           let file_name := activity_file_name chembl_id standard_type in
           let printed :=
             stdout w
             +:+ String.concat " " (dropped_line (num_rows_of df - num_rows_of kept))
             +:+ PyStr.nl in
           match resolve file_name with
           | Some place =>
               (Ok (<["csv_output" := PScalar (SStr file_name)]> (table_summary kept)),
                mkWorld (<[place := csv_of_table kept]> (files w)) printed)
           | None => (Raise (OSError file_name), mkWorld (files w) printed)
           end
       end.
Proof.
  unfold generate_activity_data. cbv zeta.
  destruct (is_empty (activity_filter [("target_chembl_id", chembl_id)])); [reflexivity |].
  destruct (is_empty (activity_filter _)); [reflexivity |].
  unfold bind, lift, dropna.
  destruct (column_position "canonical_smiles" _); [| reflexivity].
  unfold print, to_csv. cbn [files stdout].
  destruct (resolve (activity_file_name chembl_id standard_type)); reflexivity.
Qed.

Lemma is_empty_nil {A : Type} (l : list A) : is_empty l = true <-> l = [].
Proof. destruct l; simpl; split; congruence. Qed.

Lemma is_empty_cons {A : Type} (l : list A) : is_empty l = false <-> l <> [].
Proof. destruct l; simpl; split; congruence. Qed.

(** The line [print] writes for a dropped-row count. *)
Lemma dropped_line_text (n : Z) :
  String.concat " " (dropped_line n) +:+ PyStr.nl
  = "Dropped  " +:+ PyStr.str_of_int n +:+ "  rows with no smiles." +:+ PyStr.nl.
Proof.
  unfold dropped_line. cbn [String.concat].
  change ("Dropped " +:+ " " +:+ PyStr.str_of_int n +:+ " " +:+ " rows with no smiles.")
    with ("Dropped  " +:+ (PyStr.str_of_int n +:+ "  rows with no smiles.")).
  now rewrite !PyStrFacts.app_assoc.
Qed.

(** C2. [generate_activity_data] raises the no-activity-data [ValueError]
    when the query for the target holds no record, and the
    wrong-standard-type [ValueError] when that query holds records and the
    query narrowed to the standard type holds none; the two messages differ
    whatever the arguments; and when both queries hold records it raises no
    [ValueError] at all. *)
Theorem generate_activity_data_errors (chembl_id standard_type : string) (w : world) :
  let for_target := activity_filter [("target_chembl_id", chembl_id)] in
  let of_type :=
    activity_filter [("target_chembl_id", chembl_id); ("standard_type", standard_type)] in
  let outcome := fst (generate_activity_data chembl_id standard_type w) in
  (for_target = [] -> outcome = Raise (ValueError (no_activity_msg chembl_id)))
  /\ (for_target <> [] -> of_type = [] ->
      outcome = Raise (ValueError (wrong_standard_type_msg standard_type)))
  /\ (forall c s, no_activity_msg c <> wrong_standard_type_msg s)
  /\ (for_target <> [] -> of_type <> [] -> forall msg, outcome <> Raise (ValueError msg)).
Proof.
  cbv zeta. rewrite generate_activity_data_run. cbv zeta.
  split; [| split; [| split]].
  - intros H. apply is_empty_nil in H. now rewrite H.
  - intros H1 H2. apply is_empty_cons in H1. apply is_empty_nil in H2. now rewrite H1, H2.
  - intros c s. unfold no_activity_msg, wrong_standard_type_msg. simpl. discriminate.
  - intros H1 H2 msg. apply is_empty_cons in H1, H2. rewrite H1, H2.
    destruct (column_position "canonical_smiles" _); [| simpl; discriminate].
    destruct (resolve _); simpl; discriminate.
Qed.

(** C3. When both queries hold records and the table built from them has
    a [canonical_smiles] column, [generate_activity_data] drops exactly the
    rows whose structure-string cell is missing: a row with a missing cell
    is not kept, a row with one that is not missing is; the line it prints
    reports the number of rows of the table before minus the number of rows
    kept; and the kept rows are the table it persists under the activity
    file name and summarises. Where that name names no place it raises
    [OSError] after printing, and persists nothing. *)
Theorem generate_activity_data_drops_missing
    (chembl_id standard_type : string) (w : world) (i : nat) :
  let of_type :=
    activity_filter [("target_chembl_id", chembl_id); ("standard_type", standard_type)] in
  let df := DataFrame_of_records of_type in
  activity_filter [("target_chembl_id", chembl_id)] <> [] ->
  of_type <> [] ->
  column_position "canonical_smiles" (columns df) = Some i ->
  let kept := List.filter (fun r => negb (isna (cell_at i r))) (rows df) in
  let dropped := (Z.of_nat (length (rows df)) - Z.of_nat (length kept))%Z in
  let file_name := activity_file_name chembl_id standard_type in
  let w' := snd (generate_activity_data chembl_id standard_type w) in
  (forall r, In r (rows df) -> isna (cell_at i r) = true -> ~ In r kept)
  /\ (forall r, In r (rows df) -> isna (cell_at i r) = false -> In r kept)
  /\ length (rows df) = length of_type
  /\ stdout w' = stdout w +:+ "Dropped  " +:+ PyStr.str_of_int dropped
                 +:+ "  rows with no smiles." +:+ PyStr.nl
  /\ (forall place, resolve file_name = Some place ->
        files w' = <[place := csv_of_table (mkDataFrame (columns df) kept)]> (files w)
        /\ exists d, fst (generate_activity_data chembl_id standard_type w) = Ok d
                     /\ d !! "num_rows" = Some (PScalar (SInt (Z.of_nat (length kept)))))
  /\ (resolve file_name = None ->
        files w' = files w
        /\ fst (generate_activity_data chembl_id standard_type w)
           = Raise (OSError file_name)).
Proof.
  cbv zeta. intros H1 H2 Hcol.
  rewrite generate_activity_data_run. cbv zeta.
  apply is_empty_cons in H1, H2. rewrite H1, H2, Hcol.
  split; [| split; [| split; [| split; [| split]]]].
  - intros r _ Hna Hin. apply filter_In in Hin as [_ Hkeep]. now rewrite Hna in Hkeep.
  - intros r Hin Hna. apply filter_In. now rewrite Hna.
  - apply rows_of_records.
  - destruct (resolve _); cbn [snd stdout]; f_equal; apply dropped_line_text.
  - intros place ->. cbn [fst snd files]. split; [reflexivity |].
    eexists. split; [reflexivity |].
    rewrite lookup_insert_ne by discriminate. unfold table_summary.
    now rewrite lookup_insert_eq.
  - intros ->. cbn [fst snd files]. split; reflexivity.
Qed.

Lemma summarize_df_named (df : DataFrame) (name : string) :
  name <> "" ->
  summarize_df (ODataFrame df) (Some name)
  = Ok (<["csv_output" := PScalar (SStr name)]> (table_summary df)).
Proof. destruct name; [congruence | reflexivity]. Qed.

Lemma lipinski_file_name_nonempty (target_id activity_type : string) :
  lipinski_file_name target_id activity_type <> "".
Proof. unfold lipinski_file_name. destruct target_id; discriminate. Qed.

(** Reading the two names back succeeds on any name with at least four
    underscore-separated fields. *)
Lemma parse_activity_file_name_fields (activity_file : string) :
  3 < length (PyStr.split "_" activity_file) ->
  exists names, parse_activity_file_name activity_file = Ok names.
Proof.
  intros Hlen. unfold parse_activity_file_name.
  destruct (PyStr.split "_" activity_file) as [|f0 [|f1 [|f2 [|f3 rest]]]];
    simpl in Hlen; try lia.
  simpl. pose proof (PyStrFacts.split_nonempty "." f3) as Hne.
  destruct (PyStr.split "." f3) as [|t ts]; [congruence |].
  simpl. eauto.
Qed.

(** Every activity file name has the four fields, whatever the two names. *)
Lemma activity_file_name_fields (chembl_id standard_type : string) :
  3 < length (PyStr.split "_" (activity_file_name chembl_id standard_type)).
Proof.
  unfold activity_file_name.
  change ("activity_data_" +:+ chembl_id +:+ "_" +:+ standard_type +:+ ".csv")
    with ("activity" +:+ String "_" ("data" +:+ String "_"
            (chembl_id +:+ String "_" (standard_type +:+ ".csv")))).
  rewrite !PyStrFacts.split_length_app.
  pose proof (PyStrFacts.split_length_pos "_" "activity").
  pose proof (PyStrFacts.split_length_pos "_" "data").
  pose proof (PyStrFacts.split_length_pos "_" chembl_id).
  pose proof (PyStrFacts.split_length_pos "_" (standard_type +:+ ".csv")).
  lia.
Qed.

(** C5. The names [generate_activity_data] puts into the activity file
    name are the names [calculate_lipinski_descriptors] reads back from it,
    provided neither contains an underscore and the standard type contains no
    dot. *)
Theorem activity_file_name_round_trip (chembl_id standard_type : string) :
  PyStr.has_char "_" chembl_id = false ->
  PyStr.has_char "_" standard_type = false ->
  PyStr.has_char "." standard_type = false ->
  parse_activity_file_name (activity_file_name chembl_id standard_type)
  = Ok (chembl_id, standard_type).
Proof.
  intros Hid Hty Hdot. unfold parse_activity_file_name, activity_file_name.
  change ("activity_data_" +:+ chembl_id +:+ "_" +:+ standard_type +:+ ".csv")
    with ("activity" +:+ String "_" ("data" +:+ String "_"
            (chembl_id +:+ String "_" (standard_type +:+ String "." "csv")))).
  rewrite !PyStrFacts.split_field by (reflexivity || assumption).
  rewrite PyStrFacts.split_no_sep
    by (rewrite PyStrFacts.has_char_app, Hty; reflexivity).
  cbn [py_index nth_error and_then].
  rewrite PyStrFacts.split_field by assumption.
  reflexivity.
Qed.

(** What [calculate_lipinski_descriptors] does, step by step. *)
Lemma calculate_lipinski_descriptors_run (activity_file : string) (w : world) :
  calculate_lipinski_descriptors activity_file w =
  match resolve activity_file with
  | None => (Raise (FileNotFoundError activity_file), w)
  | Some place =>
      match files w !! place with
      | None => (Raise (FileNotFoundError activity_file), w)
      | Some f =>
          match table_of_csv f with
          | Raise e => (Raise e, w)
          | Ok activity_data =>
              match get_column activity_data "canonical_smiles" with
              | None => (Raise (KeyError "canonical_smiles"), w)
              | Some smiles_series =>
                  match lipinski_rows smiles_series with
                  | Raise e => (Raise e, w)
                  | Ok lipinski_descriptors =>
                      match parse_activity_file_name activity_file with
                      | Raise e => (Raise e, w)
                      | Ok names =>
                          let lipinski_df :=
                            mkDataFrame lipinski_columns lipinski_descriptors in
                          let file_name := lipinski_file_name (fst names) (snd names) in
                          match resolve file_name with
                          | Some out =>
                              (Ok (<["csv_output" := PScalar (SStr file_name)]>
                                     (table_summary lipinski_df)),
                               mkWorld (<[out := csv_of_table lipinski_df]> (files w))
                                       (stdout w))
                          | None => (Raise (OSError file_name), w)
                          end
                      end
                  end
              end
          end
      end
  end.
Proof.
  unfold calculate_lipinski_descriptors, bind, read_csv, column_item, lift.
  destruct (resolve activity_file) as [place|]; [| reflexivity].
  destruct (files w !! place) as [f|]; [| reflexivity].
  destruct (table_of_csv f) as [activity_data|e]; [| reflexivity].
  destruct (get_column activity_data "canonical_smiles") as [smiles_series|]; [| reflexivity].
  unfold ret. destruct (lipinski_rows smiles_series) as [lipinski_descriptors|e]; [| reflexivity].
  destruct (parse_activity_file_name activity_file) as [names|e]; [| reflexivity].
  cbv zeta. unfold to_csv.
  destruct (resolve (lipinski_file_name (fst names) (snd names))); [| reflexivity].
  rewrite summarize_df_named by apply lipinski_file_name_nonempty.
  reflexivity.
Qed.

(** What [calculate_mordred_descriptors] does. *)
Lemma calculate_mordred_descriptors_run (smiles : list string) (w : world) :
  calculate_mordred_descriptors smiles w =
  match calc_pandas (map MolFromSmiles smiles) with
  | Raise e => (Raise e, w)
  | Ok df =>
      match resolve "mordred_descriptors.csv" with
      | Some place =>
          (Ok (table_summary df), mkWorld (<[place := csv_of_table df]> (files w)) (stdout w))
      | None => (Raise (OSError "mordred_descriptors.csv"), w)
      end
  end.
Proof.
  unfold calculate_mordred_descriptors, bind, lift, to_csv, mordred_file_name.
  destruct (calc_pandas _); [| reflexivity].
  destruct (resolve "mordred_descriptors.csv"); reflexivity.
Qed.


(** The loop of lines 174-182 succeeds on cells that all parse, and then
    its rows are the descriptor rows of the cells, one for one. *)
Lemma lipinski_rows_parsed (smiles_series : list scalar) :
  forallb parses smiles_series = true ->
  lipinski_rows smiles_series = Ok (map descriptors_of_smiles smiles_series).
Proof.
  induction smiles_series as [|smiles rest IH]; simpl; intros Hall; [reflexivity |].
  apply andb_true_iff in Hall as [Hone Hrest]. rewrite (IH Hrest).
  destruct smiles as [| | | | s |]; simpl in Hone; try discriminate.
  simpl. destruct (MolFromSmiles s); [reflexivity | discriminate].
Qed.

Lemma forallb_cells (i : nat) (rs : list (list scalar)) :
  forallb parses (map (cell_at i) rs) = forallb (fun r => parses (cell_at i r)) rs.
Proof. induction rs as [|r rs IH]; simpl; [reflexivity | now rewrite IH]. Qed.

Lemma descriptors_of_parsed (smiles : scalar) :
  parses smiles = true ->
  exists s m, smiles = SStr s /\ MolFromSmiles s = Some m
              /\ descriptors_of_smiles smiles
                 = [SFloat (MolWt m); SInt (NumHDonors m); SInt (NumHAcceptors m);
                    SInt (NumRotatableBonds m); SFloat (MolLogP m)].
Proof.
  destruct smiles as [| | | | s |]; simpl; try discriminate.
  destruct (MolFromSmiles s) as [m|] eqn:Hm; [| discriminate].
  intros _. exists s, m. now rewrite Hm.
Qed.

(** The Lipinski stage on a loaded table whose structure strings all
    parse, once the two names have been read from the file name: it writes
    and returns where the output name names a place, and raises [OSError],
    writing nothing, where it names none. *)
Lemma calculate_lipinski_descriptors_parsed
    (activity_file place : string) (w : world) (f : csv) (activity_data : DataFrame)
    (i : nat) (names : string * string) :
  resolve activity_file = Some place ->
  files w !! place = Some f ->
  table_of_csv f = Ok activity_data ->
  column_position "canonical_smiles" (columns activity_data) = Some i ->
  forallb (fun r => parses (cell_at i r)) (rows activity_data) = true ->
  parse_activity_file_name activity_file = Ok names ->
  calculate_lipinski_descriptors activity_file w =
  let lipinski_df :=
    mkDataFrame lipinski_columns
      (map (fun r => descriptors_of_smiles (cell_at i r)) (rows activity_data)) in
  let file_name := lipinski_file_name (fst names) (snd names) in
  match resolve file_name with
  | Some out =>
      (Ok (<["csv_output" := PScalar (SStr file_name)]> (table_summary lipinski_df)),
       mkWorld (<[out := csv_of_table lipinski_df]> (files w)) (stdout w))
  | None => (Raise (OSError file_name), w)
  end.
Proof.
  intros Hplace Hf Hdata Hcol Hparse Hnames.
  rewrite calculate_lipinski_descriptors_run, Hplace, Hf, Hdata, (get_column_at _ _ _ Hcol).
  rewrite lipinski_rows_parsed by (now rewrite forallb_cells).
  rewrite Hnames, map_map. reflexivity.
Qed.

(** C9. On an activity file named by the convention
    [activity_data_{chembl_id}_{standard_type}.csv] that is there and loads
    to a table with a [canonical_smiles] column whose cells are all strings
    RDKit parses, [calculate_lipinski_descriptors] reads two names back from
    the file name and builds a table with the five descriptor columns and
    one row per row of the activity table, in order; the row is the
    molecular weight, donor count, acceptor count, rotatable-bond count and
    logP of the molecule parsed from that row's structure string, and of
    nothing else. It persists and returns that table where the output name
    names a place, and raises [OSError] where it names none. *)
Theorem calculate_lipinski_descriptors_table
    (chembl_id standard_type place : string) (w : world) (f : csv)
    (activity_data : DataFrame) (i : nat) :
  let activity_file := activity_file_name chembl_id standard_type in
  resolve activity_file = Some place ->
  files w !! place = Some f ->
  table_of_csv f = Ok activity_data ->
  column_position "canonical_smiles" (columns activity_data) = Some i ->
  forallb (fun r => parses (cell_at i r)) (rows activity_data) = true ->
  let lipinski_df :=
    mkDataFrame
      ["Molecular Weight"; "H-Bond Donors"; "H-Bond Acceptors"; "Rotatable Bonds"; "LogP"]
      (map (fun r => descriptors_of_smiles (cell_at i r)) (rows activity_data)) in
  exists target_id activity_type,
    parse_activity_file_name activity_file = Ok (target_id, activity_type)
    /\ (forall out, resolve (lipinski_file_name target_id activity_type) = Some out ->
          calculate_lipinski_descriptors activity_file w
          = (Ok (<["csv_output" :=
                     PScalar (SStr (lipinski_file_name target_id activity_type))]>
                   (table_summary lipinski_df)),
             mkWorld (<[out := csv_of_table lipinski_df]> (files w)) (stdout w)))
    /\ (resolve (lipinski_file_name target_id activity_type) = None ->
          calculate_lipinski_descriptors activity_file w
          = (Raise (OSError (lipinski_file_name target_id activity_type)), w))
    /\ length (rows lipinski_df) = length (rows activity_data)
    /\ (forall r, In r (rows activity_data) ->
          exists s m,
            cell_at i r = SStr s /\ MolFromSmiles s = Some m
            /\ descriptors_of_smiles (cell_at i r)
               = [SFloat (MolWt m); SInt (NumHDonors m); SInt (NumHAcceptors m);
                  SInt (NumRotatableBonds m); SFloat (MolLogP m)]).
Proof.
  cbv zeta. intros Hplace Hf Hdata Hcol Hparse.
  destruct (parse_activity_file_name_fields _
              (activity_file_name_fields chembl_id standard_type))
    as [[target_id activity_type] Hnames].
  exists target_id, activity_type. split; [exact Hnames |].
  pose proof (calculate_lipinski_descriptors_parsed _ _ _ _ _ _ _
                Hplace Hf Hdata Hcol Hparse Hnames) as Hrun.
  cbv zeta in Hrun. cbn [fst snd] in Hrun.
  split; [| split; [| split]].
  - intros out Hout. now rewrite Hrun, Hout.
  - intros Hout. now rewrite Hrun, Hout.
  - cbn [rows]. apply length_map.
  - intros r Hin. apply descriptors_of_parsed.
    rewrite forallb_forall in Hparse. now apply Hparse.
Qed.

End DataFunctionFacts.

(** ** More on the data functions: errors, frames and composition *)

Section PipelineFacts.

Context `{pandas_io : PandasIO} `{fs : FileSystem} `{chembl : ChEMBL} `{rdkit : RDKit}
        `{mordred : !Mordred}.

(** X1. The decorator's wrapper is [summarize_df] with no file name, run on
    what [func] returned: the same dict for a table or a series, the same
    unbound-local error for anything else, and [func]'s own exception and
    effects when [func] raises. *)
Theorem chat_friendly_df_summary_is_summarize_df
    {A : Type} (func : A -> M pyobj) (args : A) (w : world) :
  chat_friendly_df_summary func args w
  = bind (func args) (fun obj => lift (summarize_df obj None)) w.
Proof.
  unfold chat_friendly_df_summary, bind.
  destruct (func args w) as [[obj|e] w']; [| reflexivity].
  destruct obj; reflexivity.
Qed.

(** What [select_target_from_query_results] does, step by step. *)
Lemma select_target_steps (chembl_id target_query_string : string) (w : world) :
  select_target_from_query_results chembl_id target_query_string w =
  match resolve (target_query_results_file target_query_string) with
  | None =>
      (Raise (FileNotFoundError (target_query_results_file target_query_string)), w)
  | Some place =>
      match files w !! place with
      | None =>
          (Raise (FileNotFoundError (target_query_results_file target_query_string)), w)
      | Some f =>
          match table_of_csv f with
          | Raise e => (Raise e, w)
          | Ok df =>
              match column_position "target_chembl_id" (columns df) with
              | None => (Raise (AttributeError "target_chembl_id"), w)
              | Some i =>
                  let hits :=
                    List.filter (fun r => eq_str (cell_at i r) chembl_id) (rows df) in
                  match hits with
                  | [] => (Raise (ValueError (not_found_msg chembl_id)), w)
                  | _ :: _ => (Ok (table_summary (mkDataFrame (columns df) hits)), w)
                  end
              end
          end
      end
  end.
Proof.
  unfold select_target_from_query_results, bind, read_csv.
  destruct (resolve (target_query_results_file target_query_string)) as [place|];
    [| reflexivity].
  destruct (files w !! place) as [f|]; [| reflexivity].
  destruct (table_of_csv f) as [df|e]; [| reflexivity].
  unfold column_attr, column_item, get_column.
  destruct (column_position "target_chembl_id" (columns df)) as [i|]; [| reflexivity].
  unfold ret. rewrite any_series_eq. cbv zeta.
  destruct (existsb (fun r => eq_str (cell_at i r) chembl_id) (rows df)) eqn:Hex.
  - apply existsb_filter_nonempty in Hex. simpl.
    unfold lift, boolean_index. rewrite select_rows_series_eq.
    destruct (List.filter _ (rows df)); [congruence | reflexivity].
  - simpl. destruct (List.filter _ (rows df)) eqn:Hf; [reflexivity |].
    assert (Hne : List.filter (fun r => eq_str (cell_at i r) chembl_id) (rows df) <> [])
      by (rewrite Hf; discriminate).
    apply existsb_filter_nonempty in Hne. congruence.
Qed.

(** X2. Selecting a target only reads: whatever it returns or raises, no file
    is written and nothing is printed. *)
Theorem select_target_leaves_world (chembl_id target_query_string : string) (w : world) :
  snd (select_target_from_query_results chembl_id target_query_string w) = w.
Proof.
  rewrite select_target_steps.
  destruct (resolve _) as [place|]; [| reflexivity].
  destruct (files w !! _) as [f|]; [| reflexivity].
  destruct (table_of_csv f) as [df|e]; [| reflexivity].
  destruct (column_position _ _) as [i|]; [| reflexivity].
  cbv zeta. destruct (List.filter _ _); reflexivity.
Qed.


(** X4. A selection that returns never returns an empty match: its [num_rows]
    is at least one, and its [columns] are those of the loaded table. *)
Theorem select_target_summary_nonempty
    (chembl_id target_query_string : string) (w : world) (d : gmap string pyval) :
  fst (select_target_from_query_results chembl_id target_query_string w) = Ok d ->
  exists n place f df,
    d !! "num_rows" = Some (PScalar (SInt n)) /\ (1 <= n)%Z
    /\ resolve (target_query_results_file target_query_string) = Some place
    /\ files w !! place = Some f
    /\ table_of_csv f = Ok df
    /\ d !! "columns" = Some (PList (map SStr (columns df))).
Proof.
  rewrite select_target_steps.
  destruct (resolve _) as [place|]; [| discriminate].
  destruct (files w !! _) as [f|] eqn:Hf; [| discriminate].
  destruct (table_of_csv f) as [df|e] eqn:Hdf; [| discriminate].
  destruct (column_position _ _) as [i|]; [| discriminate].
  cbv zeta. destruct (List.filter _ _) as [|r hits] eqn:Hhits; [discriminate |].
  intros [= <-].
  exists (Z.of_nat (length (r :: hits))), place, f, df.
  split; [apply lookup_insert_eq |]. split; [simpl; lia |].
  split; [reflexivity |]. split; [exact Hf |]. split; [exact Hdf |].
  unfold table_summary. now rewrite lookup_insert_ne by discriminate.
Qed.

(** X5. Query, then select. When the results file could be created, and
    the table read back from it has a [target_chembl_id] column that holds,
    row by row, the [target_chembl_id] of the search results (up to dtype;
    the other columns may come back changed), selecting an identifier from
    the saved query returns a summary counting the results whose
    [target_chembl_id] is that identifier, and raises the [ValueError] when
    there is none. *)
Theorem select_after_download
    (target_query_string chembl_id place : string) (w : world) (loaded : DataFrame)
    (i : nat) :
  let results := target_search target_query_string in
  let hits := List.filter (fun r => eq_str (record_get r "target_chembl_id") chembl_id)
                results in
  let saved := snd (download_protein_results target_query_string w) in
  resolve (target_query_results_file target_query_string) = Some place ->
  table_of_csv (csv_of_table (DataFrame_of_records results)) = Ok loaded ->
  column_position "target_chembl_id" (columns loaded) = Some i ->
  Forall2 (fun r row => same_value (record_get r "target_chembl_id") (cell_at i row))
          results (rows loaded) ->
  (hits <> [] ->
     select_target_from_query_results chembl_id target_query_string saved
     = (Ok (<["num_rows" := PScalar (SInt (Z.of_nat (length hits)))]>
              (<["columns" := PList (map SStr (columns loaded))]> ∅)), saved))
  /\ (hits = [] ->
      select_target_from_query_results chembl_id target_query_string saved
      = (Raise (ValueError (not_found_msg chembl_id)), saved)).
Proof.
  cbv zeta. intros Hplace Hround Hi Hsame.
  rewrite select_target_steps, download_protein_results_run. cbv zeta.
  rewrite Hplace. cbn [snd files].
  rewrite lookup_insert_eq, Hround, Hi. cbv zeta.
  pose proof (filter_related _
                (fun r => eq_str (record_get r "target_chembl_id") chembl_id)
                (fun row => eq_str (cell_at i row) chembl_id) _ _ Hsame
                (fun r row H => eq_str_same chembl_id _ _ H)) as Hhits.
  apply Forall2_length in Hhits.
  destruct (List.filter (fun r => eq_str (cell_at i r) chembl_id) (rows loaded))
    as [|row rows'] eqn:Hrows;
    destruct (List.filter (fun r => eq_str (record_get r "target_chembl_id") chembl_id)
                (target_search target_query_string)) as [|r hits] eqn:Hrecs;
    simpl in Hhits; try discriminate.
  - split; [congruence | reflexivity].
  - split; [| discriminate]. intros _.
    unfold table_summary, num_rows_of. cbn [rows columns length].
    now rewrite Hhits.
Qed.

(** Settles an equivalence between an outcome and a conjunction of plain
    conditions, once every condition has been decided. *)
Ltac settle_outcomes :=
  split; [| split]; split;
  let H := fresh "H" in
  intros H;
  first
    [ discriminate H
    | reflexivity
    | solve [ decompose [and ex] H; congruence ]
    | solve [ repeat split; first [ discriminate | reflexivity | eexists; reflexivity ] ] ].

(** X6. The outcomes of the activity retrieval besides its two
    [ValueError]s, read off the records and the file name. With both
    queries non-empty: it raises [KeyError] on [canonical_smiles] exactly
    when no record of the narrowed query has that field; it returns exactly
    when some record has it and the activity file name names a place; it
    raises [OSError] for that name exactly when some record has the field
    and the name names no place. *)
Theorem generate_activity_data_outcomes (chembl_id standard_type : string) (w : world) :
  let for_target := activity_filter [("target_chembl_id", chembl_id)] in
  let of_type :=
    activity_filter [("target_chembl_id", chembl_id); ("standard_type", standard_type)] in
  let file_name := activity_file_name chembl_id standard_type in
  let outcome := fst (generate_activity_data chembl_id standard_type w) in
  (outcome = Raise (KeyError "canonical_smiles")
   <-> for_target <> [] /\ of_type <> []
       /\ existsb (fun r => has_key r "canonical_smiles") of_type = false)
  /\ ((exists d, outcome = Ok d)
      <-> for_target <> [] /\ of_type <> []
          /\ existsb (fun r => has_key r "canonical_smiles") of_type = true
          /\ exists place, resolve file_name = Some place)
  /\ (outcome = Raise (OSError file_name)
      <-> for_target <> [] /\ of_type <> []
          /\ existsb (fun r => has_key r "canonical_smiles") of_type = true
          /\ resolve file_name = None).
Proof.
  cbv zeta. rewrite generate_activity_data_run. cbv zeta.
  destruct (activity_filter [("target_chembl_id", chembl_id)]) as [|a l];
    cbn [is_empty fst]; [settle_outcomes |].
  destruct (activity_filter
              [("target_chembl_id", chembl_id); ("standard_type", standard_type)])
    as [|r recs] eqn:Hrecs; cbn [is_empty fst]; [settle_outcomes |].
  destruct (existsb (fun r0 => has_key r0 "canonical_smiles") (r :: recs)) eqn:Hkey.
  - pose proof Hkey as Hcol. apply column_of_records in Hcol as [i Hi]. rewrite Hi.
    destruct (resolve (activity_file_name chembl_id standard_type)) as [place|];
      cbn [fst]; settle_outcomes.
  - rewrite (column_of_records_absent _ _ Hkey). cbn [fst]. settle_outcomes.
Qed.

(** X7. The activity retrieval in terms of the records it got. When both
    queries hold records and some record has a [canonical_smiles] field, the
    count it prints is the number of records whose [canonical_smiles] is
    missing (absent, [None] or NaN), whether or not the file can then be
    written; that number and the number of the other records add up to the
    number of records; and whenever it returns, the [num_rows] it returns is
    the number of the other records. *)
Theorem generate_activity_data_counts (chembl_id standard_type : string) (w : world) :
  let of_type :=
    activity_filter [("target_chembl_id", chembl_id); ("standard_type", standard_type)] in
  let missing := List.filter (fun r => isna (record_get r "canonical_smiles")) of_type in
  let present :=
    List.filter (fun r => negb (isna (record_get r "canonical_smiles"))) of_type in
  let w' := snd (generate_activity_data chembl_id standard_type w) in
  activity_filter [("target_chembl_id", chembl_id)] <> [] ->
  of_type <> [] ->
  existsb (fun r => has_key r "canonical_smiles") of_type = true ->
  stdout w' = stdout w +:+ "Dropped  " +:+ PyStr.str_of_int (Z.of_nat (length missing))
              +:+ "  rows with no smiles." +:+ PyStr.nl
  /\ length missing + length present = length of_type
  /\ (forall d, fst (generate_activity_data chembl_id standard_type w) = Ok d ->
        d !! "num_rows" = Some (PScalar (SInt (Z.of_nat (length present))))).
Proof.
  cbv zeta. intros H1 H2 Hkey.
  apply column_of_records in Hkey as [i Hi].
  rewrite generate_activity_data_run. cbv zeta.
  apply is_empty_cons in H1, H2. rewrite H1, H2, Hi.
  pose proof (filter_length_split (fun r => isna (record_get r "canonical_smiles"))
                (activity_filter [("target_chembl_id", chembl_id);
                                  ("standard_type", standard_type)])) as Hsplit.
  cbv beta in Hsplit.
  pose proof (filter_related _
                (fun r => negb (isna (record_get r "canonical_smiles")))
                (fun row => negb (isna (cell_at i row))) _ _
                (rows_of_records_same _ _ _ Hi)
                (fun r row H => f_equal negb (isna_same _ _ H))) as Hkept.
  apply Forall2_length in Hkept.
  assert (Hcount : (num_rows_of (DataFrame_of_records
                      (activity_filter [("target_chembl_id", chembl_id);
                                        ("standard_type", standard_type)]))
                    - Z.of_nat (length (List.filter
                        (fun row => negb (isna (cell_at i row)))
                        (rows (DataFrame_of_records
                           (activity_filter [("target_chembl_id", chembl_id);
                                             ("standard_type", standard_type)])))))
                   )%Z
                   = Z.of_nat (length (List.filter
                        (fun r => isna (record_get r "canonical_smiles"))
                        (activity_filter [("target_chembl_id", chembl_id);
                                          ("standard_type", standard_type)])))).
  { unfold num_rows_of. rewrite rows_of_records. lia. }
  split; [| split].
  - destruct (resolve _); cbn [snd stdout]; f_equal; rewrite dropped_line_text;
      unfold num_rows_of at 2; cbn [rows]; now rewrite Hcount.
  - exact Hsplit.
  - intros d. destruct (resolve _); cbn [fst]; [| discriminate].
    intros [= <-]. rewrite lookup_insert_ne by discriminate.
    unfold table_summary, num_rows_of. cbn [rows].
    now rewrite lookup_insert_eq, Hkept.
Qed.

(** The loop of lines 174-182 stops at the first cell that is no string
    (a [TypeError]) or does not parse (an [ArgumentError]). *)
Lemma lipinski_rows_unparsed (smiles_series : list scalar) :
  forallb parses smiles_series = false ->
  exists e, lipinski_rows smiles_series = Raise e /\ (e = TypeError \/ e = ArgumentError).
Proof.
  induction smiles_series as [|smiles rest IH]; simpl; [discriminate |].
  destruct (parses smiles) eqn:Hp; simpl.
  - intros Hrest. destruct (IH Hrest) as [e [He Hkind]].
    destruct smiles as [| | | | s |]; simpl in Hp; try discriminate.
    simpl. destruct (MolFromSmiles s); [| discriminate].
    simpl. rewrite He. simpl. eauto.
  - intros _. destruct smiles as [| | | | s |]; simpl; eauto.
    simpl in Hp. destruct (MolFromSmiles s); [discriminate |]. eauto.
Qed.

(** X8. A structure-string cell that is missing, is no string or does not
    parse makes the Lipinski stage raise a [TypeError] or an
    [ArgumentError], before it looks at the file name, and it writes
    nothing. *)
Theorem calculate_lipinski_descriptors_rejects
    (activity_file place : string) (w : world) (f : csv) (activity_data : DataFrame)
    (i : nat) :
  resolve activity_file = Some place ->
  files w !! place = Some f ->
  table_of_csv f = Ok activity_data ->
  column_position "canonical_smiles" (columns activity_data) = Some i ->
  forallb (fun r => parses (cell_at i r)) (rows activity_data) = false ->
  exists e, calculate_lipinski_descriptors activity_file w = (Raise e, w)
            /\ (e = TypeError \/ e = ArgumentError).
Proof.
  intros Hplace Hf Hdata Hcol Hbad.
  rewrite calculate_lipinski_descriptors_run, Hplace, Hf, Hdata, (get_column_at _ _ _ Hcol).
  rewrite <- forallb_cells in Hbad.
  destruct (lipinski_rows_unparsed _ Hbad) as [e [-> Hkind]]. eauto.
Qed.

Lemma parse_activity_file_name_short (activity_file : string) :
  length (PyStr.split "_" activity_file) <= 3 ->
  parse_activity_file_name activity_file = Raise IndexError.
Proof.
  intros Hlen. unfold parse_activity_file_name.
  destruct (PyStr.split "_" activity_file) as [|f0 [|f1 [|f2 [|f3 rest]]]];
    simpl in Hlen; try reflexivity; lia.
Qed.

(** X9. On a file whose name has fewer than four underscore-separated fields
    the Lipinski stage computes every descriptor row and then raises
    [IndexError]: the table is lost and nothing is written. *)
Theorem calculate_lipinski_descriptors_short_name
    (activity_file place : string) (w : world) (f : csv) (activity_data : DataFrame)
    (i : nat) :
  resolve activity_file = Some place ->
  files w !! place = Some f ->
  table_of_csv f = Ok activity_data ->
  column_position "canonical_smiles" (columns activity_data) = Some i ->
  forallb (fun r => parses (cell_at i r)) (rows activity_data) = true ->
  length (PyStr.split "_" activity_file) <= 3 ->
  calculate_lipinski_descriptors activity_file w = (Raise IndexError, w).
Proof.
  intros Hplace Hf Hdata Hcol Hparse Hshort.
  rewrite calculate_lipinski_descriptors_run, Hplace, Hf, Hdata, (get_column_at _ _ _ Hcol).
  rewrite lipinski_rows_parsed by (now rewrite forallb_cells).
  now rewrite (parse_activity_file_name_short _ Hshort).
Qed.

(** X11. Each stage changes the file at one place at most, the place its
    file name names: the file at every other place is as it was. Only the
    activity retrieval prints; it only appends. *)
Theorem stages_frame :
  (forall (query : string) (w : world) (p : string),
     resolve (target_query_results_file query) <> Some p ->
     files (snd (download_protein_results query w)) !! p = files w !! p)
  /\ (forall (chembl_id standard_type : string) (w : world) (p : string),
        resolve (activity_file_name chembl_id standard_type) <> Some p ->
        files (snd (generate_activity_data chembl_id standard_type w)) !! p = files w !! p)
  /\ (forall (activity_file : string) (w : world) (p : string),
        (forall names, parse_activity_file_name activity_file = Ok names ->
                       resolve (lipinski_file_name (fst names) (snd names)) <> Some p) ->
        files (snd (calculate_lipinski_descriptors activity_file w)) !! p = files w !! p)
  /\ (forall (smiles : list string) (w : world) (p : string),
        resolve "mordred_descriptors.csv" <> Some p ->
        files (snd (calculate_mordred_descriptors smiles w)) !! p = files w !! p)
  /\ (forall (query : string) (w : world),
        stdout (snd (download_protein_results query w)) = stdout w)
  /\ (forall (activity_file : string) (w : world),
        stdout (snd (calculate_lipinski_descriptors activity_file w)) = stdout w)
  /\ (forall (smiles : list string) (w : world),
        stdout (snd (calculate_mordred_descriptors smiles w)) = stdout w)
  /\ (forall (chembl_id standard_type : string) (w : world),
        exists printed,
          stdout (snd (generate_activity_data chembl_id standard_type w))
          = stdout w +:+ printed).
Proof.
  repeat apply conj.
  - intros query w p Hp. rewrite download_protein_results_run. cbv zeta.
    destruct (resolve _) as [place|]; [| reflexivity].
    cbn [snd files]. now rewrite lookup_insert_ne by congruence.
  - intros chembl_id standard_type w p Hp. rewrite generate_activity_data_run. cbv zeta.
    destruct (is_empty _); [reflexivity |]. destruct (is_empty _); [reflexivity |].
    destruct (column_position _ _); [| reflexivity].
    destruct (resolve _) as [place|]; [| reflexivity].
    cbn [snd files]. now rewrite lookup_insert_ne by congruence.
  - intros activity_file w p Hp. rewrite calculate_lipinski_descriptors_run.
    destruct (resolve activity_file) as [place|]; [| reflexivity].
    destruct (files w !! place) as [f|]; [| reflexivity].
    destruct (table_of_csv f); [| reflexivity].
    destruct (get_column _ _); [| reflexivity].
    destruct (lipinski_rows _); [| reflexivity].
    destruct (parse_activity_file_name activity_file) as [names|e] eqn:Hnames;
      [| reflexivity].
    cbv zeta. specialize (Hp names eq_refl).
    destruct (resolve (lipinski_file_name _ _)) as [out|]; [| reflexivity].
    cbn [snd files]. now rewrite lookup_insert_ne by congruence.
  - intros smiles w p Hp. rewrite calculate_mordred_descriptors_run.
    destruct (calc_pandas _); [| reflexivity].
    destruct (resolve "mordred_descriptors.csv") as [place|]; [| reflexivity].
    cbn [snd files]. now rewrite lookup_insert_ne by congruence.
  - intros query w. rewrite download_protein_results_run. cbv zeta.
    destruct (resolve _); reflexivity.
  - intros activity_file w. rewrite calculate_lipinski_descriptors_run.
    destruct (resolve activity_file) as [place|]; [| reflexivity].
    destruct (files w !! place) as [f|]; [| reflexivity].
    destruct (table_of_csv f); [| reflexivity].
    destruct (get_column _ _); [| reflexivity].
    destruct (lipinski_rows _); [| reflexivity].
    destruct (parse_activity_file_name activity_file); [| reflexivity].
    cbv zeta. destruct (resolve (lipinski_file_name _ _)); reflexivity.
  - intros smiles w. rewrite calculate_mordred_descriptors_run.
    destruct (calc_pandas _); [| reflexivity].
    destruct (resolve "mordred_descriptors.csv"); reflexivity.
  - intros chembl_id standard_type w. rewrite generate_activity_data_run. cbv zeta.
    destruct (is_empty _); [exists ""; now rewrite PyStrFacts.app_nil_r |].
    destruct (is_empty _); [exists ""; now rewrite PyStrFacts.app_nil_r |].
    destruct (column_position _ _); [| exists ""; now rewrite PyStrFacts.app_nil_r].
    destruct (resolve _); cbn [snd stdout]; eexists; reflexivity.
Qed.

(** X13. The converse of the file-name round trip: the two names are read back
    as they were put in only if neither holds an underscore and the
    standard type holds no dot. *)
Theorem activity_file_name_round_trip_only_if (chembl_id standard_type : string) :
  parse_activity_file_name (activity_file_name chembl_id standard_type)
  = Ok (chembl_id, standard_type) ->
  PyStr.has_char "_" chembl_id = false
  /\ PyStr.has_char "_" standard_type = false
  /\ PyStr.has_char "." standard_type = false.
Proof.
  unfold parse_activity_file_name, activity_file_name.
  change ("activity_data_" +:+ chembl_id +:+ "_" +:+ standard_type +:+ ".csv")
    with ("activity" +:+ String "_" ("data" +:+ String "_"
            (chembl_id +:+ String "_" (standard_type +:+ ".csv")))).
  rewrite !PyStrFacts.split_app.
  change (PyStr.split "_" "activity") with ["activity"].
  change (PyStr.split "_" "data") with ["data"].
  cbn [app].
  pose proof (PyStrFacts.split_nonempty "_" chembl_id) as Hne.
  destruct (PyStr.split "_" chembl_id) as [|c0 cs] eqn:Hc; [congruence |].
  cbn [app]. intros Hparse.
  assert (Hc0 : PyStr.has_char "_" c0 = false).
  { apply (PyStrFacts.split_field_no_sep "_" chembl_id). rewrite Hc. now left. }
  change (py_index ("activity" :: "data" :: c0
                    :: cs ++ PyStr.split "_" (standard_type +:+ ".csv")) 2)
    with (@Ok string c0) in Hparse.
  cbn [and_then] in Hparse.
  destruct (py_index _ 3) as [ext|] eqn:Hext; cbn [and_then] in Hparse; [| discriminate].
  destruct (py_index (PyStr.split "." ext) 0) as [t|] eqn:Ht; cbn [and_then] in Hparse;
    [| discriminate].
  injection Hparse as -> ->.
  rewrite (PyStrFacts.split_no_sep _ _ Hc0) in Hc. injection Hc as <-.
  unfold py_index in Hext, Ht. cbn [app nth_error] in Hext.
  destruct (PyStr.split "_" (standard_type +:+ ".csv")) as [|e es] eqn:He;
    [discriminate |].
  injection Hext as ->.
  destruct (PyStr.split "." ext) as [|t ts] eqn:Hts; [discriminate |].
  cbn [nth_error] in Ht. injection Ht as ->.
  assert (Hext : PyStr.has_char "_" ext = false).
  { apply (PyStrFacts.split_field_no_sep "_" (standard_type +:+ ".csv")).
    rewrite He. now left. }
  assert (Hin : In standard_type (PyStr.split "." ext)) by (rewrite Hts; now left).
  split; [exact Hc0 |]. split.
  - apply (PyStrFacts.has_char_false_chars "." "_" ext); assumption.
  - apply (PyStrFacts.split_field_no_sep "." ext). exact Hin.
Qed.

Lemma parses_same (v c : scalar) : same_value v c -> parses c = parses v.
Proof.
  apply (by_text parses false).
  intros x Hx. destruct x; try reflexivity. now destruct (Hx s).
Qed.

Lemma descriptors_same (v c : scalar) :
  same_value v c -> descriptors_of_smiles c = descriptors_of_smiles v.
Proof.
  apply (by_text descriptors_of_smiles []).
  intros x Hx. destruct x; try reflexivity. now destruct (Hx s).
Qed.

(** X14. Retrieve, then describe. When the activity retrieval could write
    its file, the table read back from it has a [canonical_smiles] column
    that holds, row by row, the structure strings that were kept (up to
    dtype; the other columns may come back changed), and every kept
    structure string parses, the Lipinski stage run on the file just
    written reads two names back from the file name whatever the
    identifiers are; where its own output name names a place it returns,
    reports as many rows as there are records with a structure string, and
    writes their descriptor rows, in order. *)
Theorem lipinski_after_generate
    (chembl_id standard_type place : string) (w : world) (loaded : DataFrame) (i j : nat) :
  let of_type :=
    activity_filter [("target_chembl_id", chembl_id); ("standard_type", standard_type)] in
  let present :=
    List.filter (fun r => negb (isna (record_get r "canonical_smiles"))) of_type in
  let df := DataFrame_of_records of_type in
  let kept := mkDataFrame (columns df)
                (List.filter (fun row => negb (isna (cell_at i row))) (rows df)) in
  let saved := snd (generate_activity_data chembl_id standard_type w) in
  let described :=
    calculate_lipinski_descriptors (activity_file_name chembl_id standard_type) saved in
  activity_filter [("target_chembl_id", chembl_id)] <> [] ->
  of_type <> [] ->
  column_position "canonical_smiles" (columns df) = Some i ->
  resolve (activity_file_name chembl_id standard_type) = Some place ->
  table_of_csv (csv_of_table kept) = Ok loaded ->
  column_position "canonical_smiles" (columns loaded) = Some j ->
  Forall2 (fun row row' => same_value (cell_at i row) (cell_at j row'))
          (rows kept) (rows loaded) ->
  forallb (fun r => parses (record_get r "canonical_smiles")) present = true ->
  exists target_id activity_type,
    parse_activity_file_name (activity_file_name chembl_id standard_type)
    = Ok (target_id, activity_type)
    /\ (forall out, resolve (lipinski_file_name target_id activity_type) = Some out ->
          exists d,
            fst described = Ok d
            /\ d !! "num_rows" = Some (PScalar (SInt (Z.of_nat (length present))))
            /\ d !! "csv_output"
               = Some (PScalar (SStr (lipinski_file_name target_id activity_type)))
            /\ files (snd described) !! out
               = Some (csv_of_table
                         (mkDataFrame lipinski_columns
                            (map (fun r =>
                                    descriptors_of_smiles (record_get r "canonical_smiles"))
                                 present)))).
Proof.
  cbv zeta. intros H1 H2 Hi Hplace Hround Hj Hsame Hparses.
  destruct (parse_activity_file_name_fields _
              (activity_file_name_fields chembl_id standard_type))
    as [[target_id activity_type] Hnames].
  exists target_id, activity_type. split; [exact Hnames |].
  intros out Hout.
  (* the records with a structure string, against the rows read back *)
  pose proof (filter_related _
                (fun r => negb (isna (record_get r "canonical_smiles")))
                (fun row => negb (isna (cell_at i row))) _ _
                (rows_of_records_same _ _ _ Hi)
                (fun r row H => f_equal negb (isna_same _ _ H))) as Hkept.
  cbn [rows] in Hsame.
  pose proof (related_trans _ _
                (fun r row' => same_value (record_get r "canonical_smiles") (cell_at j row'))
                _ _ _
                (fun r row row' Ha Hb => same_value_trans _ _ _ Ha Hb)
                Hkept Hsame) as Hloaded.
  assert (Hall : forallb (fun row' => parses (cell_at j row')) (rows loaded) = true).
  { clear -Hloaded Hparses. induction Hloaded as [|r row' l l' Hrr Hl IH]; [reflexivity |].
    simpl in *. apply andb_true_iff in Hparses as [Hr Hrest].
    now rewrite (parses_same _ _ Hrr), Hr, IH. }
  (* the world the retrieval left *)
  rewrite generate_activity_data_run. cbv zeta.
  apply is_empty_cons in H1, H2. rewrite H1, H2, Hi, Hplace. cbn [snd].
  assert (Hfile : files
                    (mkWorld
                       (<[place := csv_of_table
                            (mkDataFrame
                               (columns (DataFrame_of_records
                                  (activity_filter [("target_chembl_id", chembl_id);
                                                    ("standard_type", standard_type)])))
                               (List.filter (fun row => negb (isna (cell_at i row)))
                                  (rows (DataFrame_of_records
                                     (activity_filter [("target_chembl_id", chembl_id);
                                                       ("standard_type", standard_type)])))))]>
                          (files w))
                       (stdout w
                        +:+ String.concat " "
                              (dropped_line
                                 (num_rows_of (DataFrame_of_records
                                    (activity_filter [("target_chembl_id", chembl_id);
                                                      ("standard_type", standard_type)]))
                                  - num_rows_of
                                      (mkDataFrame
                                         (columns (DataFrame_of_records
                                            (activity_filter
                                               [("target_chembl_id", chembl_id);
                                                ("standard_type", standard_type)])))
                                         (List.filter
                                            (fun row => negb (isna (cell_at i row)))
                                            (rows (DataFrame_of_records
                                               (activity_filter
                                                  [("target_chembl_id", chembl_id);
                                                   ("standard_type", standard_type)])))))))
                        +:+ PyStr.nl))
                  !! place
                  = Some (csv_of_table
                            (mkDataFrame
                               (columns (DataFrame_of_records
                                  (activity_filter [("target_chembl_id", chembl_id);
                                                    ("standard_type", standard_type)])))
                               (List.filter (fun row => negb (isna (cell_at i row)))
                                  (rows (DataFrame_of_records
                                     (activity_filter [("target_chembl_id", chembl_id);
                                                       ("standard_type", standard_type)])))))))
    by apply lookup_insert_eq.
  rewrite (calculate_lipinski_descriptors_parsed _ _ _ _ _ _ _
             Hplace Hfile Hround Hj Hall Hnames).
  cbv zeta. cbn [fst snd]. rewrite Hout. cbn [fst snd files].
  eexists. split; [reflexivity |]. split; [| split].
  - rewrite lookup_insert_ne by discriminate.
    unfold table_summary, num_rows_of. cbn [rows].
    rewrite lookup_insert_eq, length_map.
    now rewrite <- (Forall2_length _ _ _ Hloaded).
  - apply lookup_insert_eq.
  - rewrite lookup_insert_eq. do 3 f_equal.
    apply (map_related _ _ _ _ _ Hloaded).
    intros r row' Hrr. now apply descriptors_same.
Qed.

End PipelineFacts.

(** ** More on the termination predicates *)

Module ChatMore.
Import PyStr PyStrFacts Chat ChatFacts.

(** The marker text in front of a message neither adds nor removes a
    TERMINATE at its end. *)
Lemma marker_prefix_ending (m : string) :
  stripped_ends_with "TERMINATE" (FStr (terminate_group_chat m))
  <-> stripped_ends_with "TERMINATE" (FStr m).
Proof.
  unfold stripped_ends_with, terminate_group_chat. split.
  - intros [pre [ws [H Hws]]].
    do 22 (destruct pre as [|? pre];
           [ exfalso; simpl in H;
             first [ discriminate H
                   | inversion H; subst; simpl in Hws; discriminate Hws ]
           | simpl in H; injection H as _ H ]).
    now exists pre, ws.
  - intros [pre [ws [-> Hws]]].
    exists ("[GROUPCHAT_TERMINATE] " +:+ pre), ws. split; [| exact Hws].
    now rewrite app_assoc.
Qed.

(** X15. What the terminate tool returns stops a user proxy exactly when the
    message given to the tool would have: the marker by itself is no
    TERMINATE for the two user proxies. *)
Theorem terminate_tool_and_user_proxies (m : string) (x : gmap string field) :
  holds (user_proxy_for_running_code_is_termination_msg
           (<["content" := FStr (terminate_group_chat m)]> x))
  = holds (user_proxy_for_running_code_is_termination_msg (<["content" := FStr m]> x))
  /\ holds (user_proxy_for_user_input_is_termination_msg
              (<["content" := FStr (terminate_group_chat m)]> x))
     = holds (user_proxy_for_user_input_is_termination_msg (<["content" := FStr m]> x)).
Proof.
  assert (Hboth : forall content : field,
            (<["content" := content]> x : gmap string field) !! "content" = Some content)
    by (intros; apply lookup_insert_eq).
  split; apply Bool.eq_iff_eq_true.
  - unfold user_proxy_for_running_code_is_termination_msg, dict_get.
    rewrite !Hboth. cbv zeta.
    rewrite (user_proxy_predicate_spec (FStr (terminate_group_chat m))).
    rewrite (user_proxy_predicate_spec (FStr m)).
    apply marker_prefix_ending.
  - unfold user_proxy_for_user_input_is_termination_msg, dict_get.
    rewrite !Hboth. cbv zeta.
    rewrite (user_proxy_predicate_spec (FStr (terminate_group_chat m))).
    rewrite (user_proxy_predicate_spec (FStr m)).
    apply marker_prefix_ending.
Qed.

(** X16. The predicates on a message without text. With no [content] key all
    three return a falsy value. With [content] set to [None] the user
    proxies return [None] and the manager's predicate raises [TypeError].
    With a non-empty list as content the user proxies raise
    [AttributeError] and the manager's predicate tests membership. *)
Theorem predicates_without_text (x : gmap string field) :
  (x !! "content" = None ->
     manager_is_termination_msg x = Ok false
     /\ user_proxy_for_running_code_is_termination_msg x = Ok (PScalar (SStr ""))
     /\ user_proxy_for_user_input_is_termination_msg x = Ok (PScalar (SStr "")))
  /\ (x !! "content" = Some FNone ->
      manager_is_termination_msg x = Raise TypeError
      /\ user_proxy_for_running_code_is_termination_msg x = Ok (PScalar SNone)
      /\ user_proxy_for_user_input_is_termination_msg x = Ok (PScalar SNone))
  /\ (forall part parts, x !! "content" = Some (FParts (part :: parts)) ->
      manager_is_termination_msg x
      = Ok (existsb (fun y => eq_str y "GROUPCHAT_TERMINATE") (part :: parts))
      /\ user_proxy_for_running_code_is_termination_msg x = Raise (AttributeError "rstrip")
      /\ user_proxy_for_user_input_is_termination_msg x = Raise (AttributeError "rstrip")).
Proof.
  unfold manager_is_termination_msg, user_proxy_for_running_code_is_termination_msg,
    user_proxy_for_user_input_is_termination_msg, dict_get.
  split; [| split].
  - intros ->. repeat split.
  - intros ->. repeat split.
  - intros part parts ->. repeat split.
Qed.

End ChatMore.


(** ** The theorems at work on the concrete world *)

Module Runs.

(** Selecting CHEMBL203 from the saved EGFR query returns the summary of
    its one row; selecting an id that is not there raises. *)
Lemma select_target_run :
  select_target_from_query_results (pandas_io := Demo.io) (fs := Demo.fs)
    "CHEMBL203" "EGFR" Demo.queried_world
  = (Ok (<["num_rows" := PScalar (SInt 1)]>
           (<["columns" := PList [SStr "organism"; SStr "pref_name"; SStr "target_chembl_id"]]>
              ∅)),
     Demo.queried_world)
  /\ select_target_from_query_results (pandas_io := Demo.io) (fs := Demo.fs)
       "CHEMBL1" "EGFR" Demo.queried_world
     = (Raise (ValueError "Error: CHEMBL1 not found in the protein results dataframe"),
        Demo.queried_world).
Proof.
  split.
  - destruct (select_target_from_query_results_spec (pandas_io := Demo.io) (fs := Demo.fs)
                "CHEMBL203" "EGFR" "target_query_results_EGFR.csv" Demo.queried_world
                (mkDataFrame ["organism"; "pref_name"; "target_chembl_id"]
                   [ [SStr "Homo sapiens"; SStr "EGFR"; SStr "CHEMBL203"];
                     [SStr "Mus musculus"; SStr "Egfr"; SStr "CHEMBL3608"] ])
                (mkDataFrame ["organism"; "pref_name"; "target_chembl_id"]
                   [ [SStr "Homo sapiens"; SStr "EGFR"; SStr "CHEMBL203"];
                     [SStr "Mus musculus"; SStr "Egfr"; SStr "CHEMBL3608"] ])
                2 eq_refl eq_refl eq_refl eq_refl)
      as [Hfound _].
    destruct Hfound as [Hrun [Hsummary _]].
    + exists [SStr "Homo sapiens"; SStr "EGFR"; SStr "CHEMBL203"].
      split; [left; reflexivity | reflexivity].
    + rewrite Hrun, Hsummary. reflexivity.
  - destruct (select_target_from_query_results_spec (pandas_io := Demo.io) (fs := Demo.fs)
                "CHEMBL1" "EGFR" "target_query_results_EGFR.csv" Demo.queried_world
                (mkDataFrame ["organism"; "pref_name"; "target_chembl_id"]
                   [ [SStr "Homo sapiens"; SStr "EGFR"; SStr "CHEMBL203"];
                     [SStr "Mus musculus"; SStr "Egfr"; SStr "CHEMBL3608"] ])
                (mkDataFrame ["organism"; "pref_name"; "target_chembl_id"]
                   [ [SStr "Homo sapiens"; SStr "EGFR"; SStr "CHEMBL203"];
                     [SStr "Mus musculus"; SStr "Egfr"; SStr "CHEMBL3608"] ])
                2 eq_refl eq_refl eq_refl eq_refl)
      as [_ Hmissing].
    apply Hmissing. intros r [<- | [<- | []]]; reflexivity.
Defined.



(** Retrieving the IC50 data of CHEMBL203 drops the one record with no
    structure string, persists the other two and reports one row dropped. *)
Lemma generate_activity_data_run_demo :
  files (snd (generate_activity_data (pandas_io := Demo.text_io) (fs := Demo.fs)
                (chembl := Demo.client) "CHEMBL203" "IC50" Demo.empty_text_world))
  = <["activity_data_CHEMBL203_IC50.csv" :=
        mkDataFrame ["canonical_smiles"; "standard_type"; "target_chembl_id"]
          [ [SStr "CCO"; SStr "IC50"; SStr "CHEMBL203"];
            [SStr "c1ccccc1"; SStr "IC50"; SStr "CHEMBL203"] ] ]> ∅
  /\ stdout (snd (generate_activity_data (pandas_io := Demo.text_io) (fs := Demo.fs)
                    (chembl := Demo.client) "CHEMBL203" "IC50" Demo.empty_text_world))
     = "Dropped  1  rows with no smiles." +:+ PyStr.nl.
Proof.
  destruct (generate_activity_data_drops_missing (pandas_io := Demo.text_io)
              (fs := Demo.fs) (chembl := Demo.client) "CHEMBL203" "IC50"
              Demo.empty_text_world 0)
    as [_ [_ [_ [Hout [Hwritten _]]]]].
  - discriminate.
  - discriminate.
  - reflexivity.
  - destruct (Hwritten "activity_data_CHEMBL203_IC50.csv" eq_refl) as [Hfiles _].
    split; [exact Hfiles | exact Hout].
Defined.

(** The two errors of the activity retrieval, the [OSError] of a standard
    type that holds a slash (raised after the line is printed), the
    [OSError] of the Lipinski stage on a file in a directory, whose output
    name points into a directory that is not there, and the unbound local of
    the summary helper, by evaluation. *)
Example generate_activity_data_raises :
  fst (generate_activity_data (pandas_io := Demo.io) (fs := Demo.fs) (chembl := Demo.client)
         "CHEMBL1" "IC50" Demo.empty_world)
  = Raise (ValueError "No activity data found for CHEMBL1. Please try another target.")
  /\ fst (generate_activity_data (pandas_io := Demo.io) (fs := Demo.fs)
            (chembl := Demo.client) "CHEMBL203" "Ki" Demo.empty_world)
     = Raise (ValueError ("Activity data was found for this target, but not with the "
                          +:+ "standard type 'Ki'. Please try another standard type."))
  /\ calculate_lipinski_descriptors (pandas_io := Demo.io) (fs := Demo.fs_data_pull)
       (rdkit := Demo.toolkit) "my_data_pull/activity_data_CHEMBL203_IC50.csv"
       Demo.data_pull_world
     = (Raise (OSError "pull/activity_data_lipinski.csv"), Demo.data_pull_world)
  /\ summarize_df (OOther (PScalar (SStr "not a table"))) None
     = Raise (UnboundLocalError "result_dict").
Proof. repeat apply conj; reflexivity. Qed.

(** The activity file name of CHEMBL203 and IC50 reads back as the two. *)
Lemma activity_file_name_round_trip_demo :
  activity_file_name "CHEMBL203" "IC50" = "activity_data_CHEMBL203_IC50.csv"
  /\ parse_activity_file_name "activity_data_CHEMBL203_IC50.csv" = Ok ("CHEMBL203", "IC50").
Proof.
  split; [reflexivity |].
  exact (activity_file_name_round_trip "CHEMBL203" "IC50" eq_refl eq_refl eq_refl).
Defined.

(** The Lipinski stage on the saved activity file: two rows in, two
    descriptor rows out, under the name read from the file name. *)
Lemma calculate_lipinski_descriptors_run_demo :
  exists d,
    calculate_lipinski_descriptors (pandas_io := Demo.io) (fs := Demo.fs)
      (rdkit := Demo.toolkit) "activity_data_CHEMBL203_IC50.csv" Demo.activity_world
    = (Ok d,
       mkWorld (<["CHEMBL203_IC50_lipinski.csv" :=
                    mkDataFrame
                      ["Molecular Weight"; "H-Bond Donors"; "H-Bond Acceptors";
                       "Rotatable Bonds"; "LogP"]
                      [ [SFloat 46.5; SInt 3; SInt 1; SInt 0; SFloat 0.5];
                        [SFloat 46.5; SInt 8; SInt 1; SInt 0; SFloat 0.5] ] ]>
                  (files Demo.activity_world))
               "").
Proof.
  destruct (calculate_lipinski_descriptors_table (pandas_io := Demo.io) (fs := Demo.fs)
              (rdkit := Demo.toolkit) "CHEMBL203" "IC50"
              "activity_data_CHEMBL203_IC50.csv" Demo.activity_world
              (mkDataFrame ["canonical_smiles"; "standard_type"; "target_chembl_id"]
                 [ [SStr "CCO"; SStr "IC50"; SStr "CHEMBL203"];
                   [SStr "c1ccccc1"; SStr "IC50"; SStr "CHEMBL203"] ])
              (mkDataFrame ["canonical_smiles"; "standard_type"; "target_chembl_id"]
                 [ [SStr "CCO"; SStr "IC50"; SStr "CHEMBL203"];
                   [SStr "c1ccccc1"; SStr "IC50"; SStr "CHEMBL203"] ])
              0 eq_refl eq_refl eq_refl eq_refl eq_refl)
    as [target_id [activity_type [Hnames [Hrun _]]]].
  injection Hnames as <- <-.
  eexists. exact (Hrun "CHEMBL203_IC50_lipinski.csv" eq_refl).
Defined.

End Runs.

(** ** The further theorems at work on the concrete world *)

Module MoreRuns.

(** A selection that returned reports at least one row. *)
Lemma select_target_summary_nonempty_demo :
  exists d n,
    fst (select_target_from_query_results (pandas_io := Demo.io) (fs := Demo.fs)
           "CHEMBL203" "EGFR" Demo.queried_world)
    = Ok d
    /\ d !! "num_rows" = Some (PScalar (SInt n)) /\ (1 <= n)%Z.
Proof.
  destruct (select_target_summary_nonempty (pandas_io := Demo.io) (fs := Demo.fs)
              "CHEMBL203" "EGFR" Demo.queried_world _ eq_refl)
    as [n [place [f [df [Hn [Hle _]]]]]].
  eexists. exists n. split; [reflexivity |]. split; [exact Hn | exact Hle].
Defined.

(** Query kinase, then select, with CSV text that does not load back to
    the table written (the nested object comes back as text, the missing
    organism as NaN): one hit for CHEMBL203, a [ValueError] for an identifier
    that is not among the results. *)
Lemma select_after_download_demo :
  select_target_from_query_results (pandas_io := Demo.text_io) (fs := Demo.fs)
    "CHEMBL203" "kinase"
    (snd (download_protein_results (pandas_io := Demo.text_io) (fs := Demo.fs)
            (chembl := Demo.client) "kinase" Demo.empty_text_world))
  = (Ok (<["num_rows" := PScalar (SInt 1)]>
           (<["columns" :=
                PList [SStr "cross_references"; SStr "organism"; SStr "target_chembl_id"]]>
              ∅)),
     snd (download_protein_results (pandas_io := Demo.text_io) (fs := Demo.fs)
            (chembl := Demo.client) "kinase" Demo.empty_text_world))
  /\ select_target_from_query_results (pandas_io := Demo.text_io) (fs := Demo.fs)
       "CHEMBL1" "kinase"
       (snd (download_protein_results (pandas_io := Demo.text_io) (fs := Demo.fs)
               (chembl := Demo.client) "kinase" Demo.empty_text_world))
     = (Raise (ValueError "Error: CHEMBL1 not found in the protein results dataframe"),
        snd (download_protein_results (pandas_io := Demo.text_io) (fs := Demo.fs)
               (chembl := Demo.client) "kinase" Demo.empty_text_world)).
Proof.
  assert (Hsame :
            Forall2 (fun r row => same_value (record_get r "target_chembl_id") (cell_at 2 row))
              Demo.kinase_targets
              [ [SStr "[]"; SFloat nan; SStr "CHEMBL203"];
                [SStr "[]"; SStr "Mus musculus"; SStr "CHEMBL3608"] ]).
  { constructor; [| constructor; [| constructor]]; apply same_value_refl. }
  split.
  - destruct (select_after_download (pandas_io := Demo.text_io) (fs := Demo.fs)
                (chembl := Demo.client) "kinase" "CHEMBL203"
                "target_query_results_kinase.csv" Demo.empty_text_world
                (mkDataFrame ["cross_references"; "organism"; "target_chembl_id"]
                   [ [SStr "[]"; SFloat nan; SStr "CHEMBL203"];
                     [SStr "[]"; SStr "Mus musculus"; SStr "CHEMBL3608"] ])
                2 eq_refl eq_refl eq_refl Hsame) as [Hhit _].
    apply Hhit. discriminate.
  - destruct (select_after_download (pandas_io := Demo.text_io) (fs := Demo.fs)
                (chembl := Demo.client) "kinase" "CHEMBL1"
                "target_query_results_kinase.csv" Demo.empty_text_world
                (mkDataFrame ["cross_references"; "organism"; "target_chembl_id"]
                   [ [SStr "[]"; SFloat nan; SStr "CHEMBL203"];
                     [SStr "[]"; SStr "Mus musculus"; SStr "CHEMBL3608"] ])
                2 eq_refl eq_refl eq_refl Hsame) as [_ Hnone].
    apply Hnone. reflexivity.
Defined.

(** Of the three IC50 records of CHEMBL203 one has no structure string:
    one row reported dropped, two rows returned. *)
Lemma generate_activity_data_counts_demo :
  stdout (snd (generate_activity_data (pandas_io := Demo.text_io) (fs := Demo.fs)
                 (chembl := Demo.client) "CHEMBL203" "IC50" Demo.empty_text_world))
  = "Dropped  1  rows with no smiles." +:+ PyStr.nl
  /\ exists d,
       fst (generate_activity_data (pandas_io := Demo.text_io) (fs := Demo.fs)
              (chembl := Demo.client) "CHEMBL203" "IC50" Demo.empty_text_world)
       = Ok d
       /\ d !! "num_rows" = Some (PScalar (SInt 2)).
Proof.
  destruct (generate_activity_data_counts (pandas_io := Demo.text_io) (fs := Demo.fs)
              (chembl := Demo.client) "CHEMBL203" "IC50" Demo.empty_text_world)
    as [Hout [_ Hsummary]].
  - discriminate.
  - discriminate.
  - reflexivity.
  - split; [exact Hout |]. eexists. split; [reflexivity |].
    apply Hsummary. reflexivity.
Defined.

(** A NaN structure string stops the Lipinski stage with a [TypeError] or
    an [ArgumentError], and nothing is written. *)
Lemma calculate_lipinski_descriptors_rejects_demo :
  exists e,
    calculate_lipinski_descriptors (pandas_io := Demo.io) (fs := Demo.fs)
      (rdkit := Demo.toolkit) "activity_data_CHEMBL203_IC50.csv" Demo.missing_cell_world
    = (Raise e, Demo.missing_cell_world)
    /\ (e = TypeError \/ e = ArgumentError).
Proof.
  exact (calculate_lipinski_descriptors_rejects (pandas_io := Demo.io) (fs := Demo.fs)
           (rdkit := Demo.toolkit) "activity_data_CHEMBL203_IC50.csv"
           "activity_data_CHEMBL203_IC50.csv" Demo.missing_cell_world
           (mkDataFrame ["canonical_smiles"] [ [SStr "CCO"]; [SFloat nan] ])
           (mkDataFrame ["canonical_smiles"] [ [SStr "CCO"]; [SFloat nan] ])
           0 eq_refl eq_refl eq_refl eq_refl eq_refl).
Defined.

(** A CSV named [smiles.csv] is described and then lost to an
    [IndexError]. *)
Lemma calculate_lipinski_descriptors_short_name_demo :
  calculate_lipinski_descriptors (pandas_io := Demo.io) (fs := Demo.fs)
    (rdkit := Demo.toolkit) "smiles.csv" Demo.short_name_world
  = (Raise IndexError, Demo.short_name_world).
Proof.
  apply (calculate_lipinski_descriptors_short_name (pandas_io := Demo.io) (fs := Demo.fs)
           (rdkit := Demo.toolkit) "smiles.csv" "smiles.csv" Demo.short_name_world
           (mkDataFrame ["canonical_smiles"] [ [SStr "CCO"] ])
           (mkDataFrame ["canonical_smiles"] [ [SStr "CCO"] ])
           0 eq_refl eq_refl eq_refl eq_refl eq_refl).
  simpl. lia.
Defined.

(** CHEMBL203 and IC50 are read back as they are, so they hold no
    underscore and IC50 no dot. *)
Lemma activity_file_name_round_trip_only_if_demo :
  PyStr.has_char "_" "CHEMBL203" = false
  /\ PyStr.has_char "_" "IC50" = false
  /\ PyStr.has_char "." "IC50" = false.
Proof.
  exact (activity_file_name_round_trip_only_if "CHEMBL203" "IC50" eq_refl).
Defined.

(** Retrieve the IC50 data of CHEMBL203, then describe the file written:
    two descriptor rows under [CHEMBL203_IC50_lipinski.csv]. *)
Lemma lipinski_after_generate_demo :
  exists d,
    fst (calculate_lipinski_descriptors (pandas_io := Demo.text_io) (fs := Demo.fs)
           (rdkit := Demo.toolkit) "activity_data_CHEMBL203_IC50.csv"
           (snd (generate_activity_data (pandas_io := Demo.text_io) (fs := Demo.fs)
                   (chembl := Demo.client) "CHEMBL203" "IC50" Demo.empty_text_world)))
    = Ok d
    /\ d !! "num_rows" = Some (PScalar (SInt 2))
    /\ d !! "csv_output" = Some (PScalar (SStr "CHEMBL203_IC50_lipinski.csv")).
Proof.
  assert (Hsame :
            Forall2 (fun row row' => same_value (cell_at 0 row) (cell_at 0 row'))
              [ [SStr "CCO"; SStr "IC50"; SStr "CHEMBL203"];
                [SStr "c1ccccc1"; SStr "IC50"; SStr "CHEMBL203"] ]
              [ [SStr "CCO"; SStr "IC50"; SStr "CHEMBL203"];
                [SStr "c1ccccc1"; SStr "IC50"; SStr "CHEMBL203"] ]).
  { constructor; [| constructor; [| constructor]]; apply same_value_refl. }
  destruct (lipinski_after_generate (pandas_io := Demo.text_io) (fs := Demo.fs)
              (chembl := Demo.client) (rdkit := Demo.toolkit) "CHEMBL203" "IC50"
              "activity_data_CHEMBL203_IC50.csv" Demo.empty_text_world
              (mkDataFrame ["canonical_smiles"; "standard_type"; "target_chembl_id"]
                 [ [SStr "CCO"; SStr "IC50"; SStr "CHEMBL203"];
                   [SStr "c1ccccc1"; SStr "IC50"; SStr "CHEMBL203"] ])
              0 0)
    as [target_id [activity_type [Hnames Hrun]]].
  - discriminate.
  - discriminate.
  - reflexivity.
  - reflexivity.
  - reflexivity.
  - reflexivity.
  - exact Hsame.
  - reflexivity.
  - injection Hnames as <- <-.
    destruct (Hrun "CHEMBL203_IC50_lipinski.csv" eq_refl) as [d [Hd [Hrows [Hout _]]]].
    exists d. split; [exact Hd |]. split; [exact Hrows | exact Hout].
Defined.

End MoreRuns.
